(** * Engineering paper: the grid layout of [paper.py]

    A shallow embedding of [mult_floor] and [create_engineering_sheet]
    and the properties of the layout they compute.  The code is embedded
    twice.

    [Paper] is the drawing in exact arithmetic.  Python's [int] is [Z] and
    Python's [float] is taken as an exact rational ([Q], compared with
    [==]), with [//], [/], [*], [+], [-] the exact operations: rounding,
    infinities and NaN are idealised away, and a division by a zero
    divisor is the only operation that raises.  The canvas is the sequence
    of operations issued on it, which is kept when the call raises, and
    the [log.debug] calls are left out.  It carries the facts that do not
    depend on the values of the doubles: which operations are issued, how
    many lines are drawn and in which style.

    [Source] is the code over Python's numbers.  An [int] is a [Z] and a
    [float] is an IEEE 754 binary64 ([F64], over the Standard Library's
    [SpecFloat]); the operators are CPython's, with their rounding and
    their exceptions ([ZeroDivisionError], [OverflowError],
    [ValueError]).  Every call into a library, [c.save()] among them, ends
    as its environment decides and may raise.  It carries everything that
    depends on the values computed. *)

From Stdlib Require Import ZArith QArith Qround Lia Lqa List String Bool.
From Stdlib Require Import Floats.SpecFloat.
Import ListNotations.

Local Open Scope Z_scope.
Local Open Scope Q_scope.

(** * The drawing in exact arithmetic *)

(** ** Exceptions and results *)

(** [ZeroDivisionError] is the only exception exact arithmetic can
    raise.  [InvalidLayoutError] is the error named by the
    specification; [paper.py] neither defines nor raises it, and it is
    listed so that statements about it can be written down. *)
Inductive exn : Set :=
| ZeroDivisionError
| InvalidLayoutError.

Inductive result (A : Type) : Type :=
| Ok (a : A)
| Raise (e : exn).

Arguments Ok {A} a.
Arguments Raise {A} e.

Definition failed {A} (r : result A) : Prop :=
  match r with Ok _ => False | Raise _ => True end.

Definition rbind {A B} (r : result A) (f : A -> result B) : result B :=
  match r with
  | Ok a => f a
  | Raise e => Raise e
  end.

Declare Scope result_scope.
Delimit Scope result_scope with result.
Notation "x <- r ;; k" := (rbind r (fun x => k))
  (at level 61, r at next level, right associativity) : result_scope.

(** ** Exact arithmetic *)

Module Py.

(** [a // b] *)
Definition floordiv (a b : Q) : result Q :=
  if Qeq_bool b 0 then Raise ZeroDivisionError
  else Ok (inject_Z (Qfloor (a / b))).

(** [a / b] *)
Definition truediv (a b : Q) : result Q :=
  if Qeq_bool b 0 then Raise ZeroDivisionError
  else Ok (a / b).

(** [a % b] on ints: the remainder has the sign of the divisor, which is
    what [Z.modulo] computes. *)
Definition mod_ (a b : Z) : result Z :=
  if (b =? 0)%Z then Raise ZeroDivisionError
  else Ok (a mod b)%Z.

(** [int(x)]: truncation toward zero. *)
Definition int (x : Q) : Z := Z.quot (Qnum x) (Zpos (Qden x)).

(** [min(a, b)]: the first of the two unless the second is smaller. *)
Definition min (a b : Q) : Q := if Qle_bool a b then a else b.

End Py.

(** ** The canvas *)

Inductive Color : Set := HexColor (val : Z).

Definition darkgreen : Color := HexColor 0x006400.
Definition lightgreen : Color := HexColor 0x90EE90.

(** The operations [paper.py] calls on its canvas. *)
Inductive op : Set :=
| setFillColor (c : Color)
| rect (x y w h : Q) (fill : Z)
| setStrokeColor (c : Color)
| setLineWidth (t : Q)
| line (x1 y1 x2 y2 : Q)
| showPage
| save.

(** A command: the operations it issued, in order, and how it ended. *)
Definition M (A : Type) : Type := list op * result A.

Definition ret {A} (a : A) : M A := ([], Ok a).

Definition bind {A B} (m : M A) (f : A -> M B) : M B :=
  match m with
  | (ops, Ok a) => let (ops', r) := f a in (ops ++ ops', r)
  | (ops, Raise e) => (ops, Raise e)
  end.

Definition lift {A} (r : result A) : M A := ([], r).

Definition emit (o : op) : M unit := ([o], Ok tt).

Declare Scope canvas_scope.
Delimit Scope canvas_scope with canvas.
Notation "x <- m ;; k" := (bind m (fun x => k))
  (at level 61, m at next level, right associativity) : canvas_scope.
Notation "m ;; k" := (bind m (fun _ => k))
  (at level 61, right associativity) : canvas_scope.

Definition ops_of {A} (m : M A) : list op := fst m.
Definition outcome {A} (m : M A) : result A := snd m.

(** [for x in l: body] *)
Fixpoint for_each {A} (l : list A) (body : A -> M unit) : M unit :=
  match l with
  | [] => ret tt
  | x :: l' => (body x ;; for_each l' body)%canvas
  end.

(** ** paper.py *)

Module Paper.

(** [mult_floor], lines 21-22. *)
Definition mult_floor (n multiple : Q) : result Z :=
  (q <- Py.floordiv n multiple ;;
   Ok (Py.int (q * multiple)))%result.

(** The arguments of [create_engineering_sheet]; [margin] is
    (top, left, bottom, right) and [page_size] is (width, height).
    [major_line_interval] is an int: its default is 5 and the command
    line reads it with [type=int]; any int is accepted, of either sign. *)
Record Args : Type := {
  filename : string;
  margin : Q * Q * Q * Q;
  grid_size : Q;
  page_size : Q * Q;
  major_line_color : Color;
  major_line_thickness : Q;
  major_line_interval : Z;
  minor_line_color : Color;
  minor_line_thickness : Q;
  border_line_color : Color;
  border_line_thickness : Q;
  background_color : Color;
  stretch_grid : bool;
  horizontal_center : bool;
  vertical_center : bool
}.

Definition margin_top (a : Args) : Q := let '(t, _, _, _) := margin a in t.
Definition margin_left (a : Args) : Q := let '(_, l, _, _) := margin a in l.
Definition margin_bottom (a : Args) : Q := let '(_, _, b, _) := margin a in b.
Definition margin_right (a : Args) : Q := let '(_, _, _, r) := margin a in r.
Definition width (a : Args) : Q := fst (page_size a).
Definition height (a : Args) : Q := snd (page_size a).

(** The signature's defaults; [pagesizes.letter] is 612 by 792 points. *)
Definition default_args (file : string) : Args := {|
  filename := file;
  margin := (30, 30, 30, 30);
  grid_size := 10;
  page_size := (612, 792);
  major_line_color := darkgreen;
  major_line_thickness := 5 # 10;
  major_line_interval := 5;
  minor_line_color := lightgreen;
  minor_line_thickness := 2 # 10;
  border_line_color := darkgreen;
  border_line_thickness := 15 # 10;
  background_color := HexColor 0xfaf3bd;
  stretch_grid := true;
  horizontal_center := true;
  vertical_center := true
|}.

(** The two expressions the source divides up, lines 43-44 and 50-51. *)
Definition usable_width (a : Args) : Q :=
  width a - margin_left a - margin_right a.
Definition usable_height (a : Args) : Q :=
  height a - margin_bottom a - margin_top a.

(** Lines 43-47: [(num_vertical_spaces, num_horizontal_spaces)]. *)
Definition count_spaces (a : Args) : result (Z * Z) :=
  (v <- Py.floordiv (usable_width a) (grid_size a) ;;
   h <- Py.floordiv (usable_height a) (grid_size a) ;;
   nv <- mult_floor v (inject_Z (major_line_interval a)) ;;
   nh <- mult_floor h (inject_Z (major_line_interval a)) ;;
   Ok (nv, nh))%result.

(** Lines 49-53: the grid size in force after the [stretch_grid] block. *)
Definition stretch (a : Args) (nv nh : Z) : result Q :=
  if stretch_grid a then
    (gv <- Py.truediv (usable_width a) (inject_Z nv) ;;
     gh <- Py.truediv (usable_height a) (inject_Z nh) ;;
     Ok (Py.min gv gh))%result
  else Ok (grid_size a).

(** The local variables the drawing passes read.  A primed name is the
    variable of that name once the source has reassigned it. *)
Record Layout : Type := {
  num_vertical_spaces : Z;
  num_horizontal_spaces : Z;
  grid_size' : Q;                 (* [grid_size] after line 52 *)
  top_stop : Q;
  right_stop : Q;
  num_vertical_lines : Z;
  num_horizontal_lines : Z;
  margin_left' : Q;               (* [margin_left] after line 63 *)
  margin_bottom' : Q;             (* [margin_bottom] after line 68 *)
  horizontal_delta : option Q;    (* bound only under [horizontal_center] *)
  vertical_delta : option Q       (* bound only under [vertical_center] *)
}.

(** Lines 55-58. *)
Definition stops (a : Args) (nv nh : Z) (g : Q) : Layout := {|
  num_vertical_spaces := nv;
  num_horizontal_spaces := nh;
  grid_size' := g;
  top_stop := margin_bottom a + inject_Z nh * g;
  right_stop := margin_left a + inject_Z nv * g;
  num_vertical_lines := (nv + 1)%Z;
  num_horizontal_lines := (nh + 1)%Z;
  margin_left' := margin_left a;
  margin_bottom' := margin_bottom a;
  horizontal_delta := None;
  vertical_delta := None
|}.

(** Lines 60-64. *)
Definition center_horizontal (a : Args) (l : Layout) : Layout :=
  if horizontal_center a then
    let delta := (width a - margin_right a - right_stop l) / 2 in
    {| num_vertical_spaces := num_vertical_spaces l;
       num_horizontal_spaces := num_horizontal_spaces l;
       grid_size' := grid_size' l;
       top_stop := top_stop l;
       right_stop := right_stop l + delta;
       num_vertical_lines := num_vertical_lines l;
       num_horizontal_lines := num_horizontal_lines l;
       margin_left' := margin_left' l + delta;
       margin_bottom' := margin_bottom' l;
       horizontal_delta := Some delta;
       vertical_delta := vertical_delta l |}
  else l.

(** Lines 65-68. *)
Definition center_vertical (a : Args) (l : Layout) : Layout :=
  if vertical_center a then
    let delta := (height a - margin_top a - top_stop l) / 2 in
    {| num_vertical_spaces := num_vertical_spaces l;
       num_horizontal_spaces := num_horizontal_spaces l;
       grid_size' := grid_size' l;
       top_stop := top_stop l + delta;
       right_stop := right_stop l;
       num_vertical_lines := num_vertical_lines l;
       num_horizontal_lines := num_horizontal_lines l;
       margin_left' := margin_left' l;
       margin_bottom' := margin_bottom' l + delta;
       horizontal_delta := horizontal_delta l;
       vertical_delta := Some delta |}
  else l.

(** Lines 43-68. *)
Definition compute_layout (a : Args) : result Layout :=
  (n <- count_spaces a ;;
   g <- stretch a (fst n) (snd n) ;;
   Ok (center_vertical a
         (center_horizontal a (stops a (fst n) (snd n) g))))%result.

(** Lines 38-40. *)
Definition draw_background (a : Args) : M unit :=
  (emit (setFillColor (background_color a)) ;;
   emit (rect 0 0 (width a) (height a) 1))%canvas.

Inductive axis : Set := X | Y.

Inductive line_class : Set := Major | Minor.

Definition stroke_color (a : Args) (c : line_class) : Color :=
  match c with Major => major_line_color a | Minor => minor_line_color a end.
Definition thickness (a : Args) (c : line_class) : Q :=
  match c with
  | Major => major_line_thickness a
  | Minor => minor_line_thickness a
  end.

(** Lines 77-82: the branch taken and the two calls of either branch. *)
Definition classify (a : Args) (count : Z) : result line_class :=
  (r <- Py.mod_ count (major_line_interval a) ;;
   Ok (if (r =? 0)%Z then Major else Minor))%result.

Definition set_style (a : Args) (c : line_class) : M unit :=
  (emit (setStrokeColor (stroke_color a c)) ;;
   emit (setLineWidth (thickness a c)))%canvas.

(** Lines 85-88. *)
Definition draw_line (l : Layout) (ax : axis) (line_end line_pos : Q)
  : M unit :=
  match ax with
  | X => emit (line line_pos (margin_bottom' l) line_pos line_end)
  | Y => emit (line (margin_left' l) line_pos line_end line_pos)
  end.

(** Lines 75-94: the [while count < num_lines] loop.  [fuel] bounds the
    number of iterations; the call in [draw_grid] passes [num_lines],
    with which the loop always leaves by its guard. *)
Fixpoint while_lines (a : Args) (l : Layout) (ax : axis) (line_end : Q)
    (num_lines : Z) (fuel : nat) (line_pos : Q) (count : Z) : M unit :=
  match fuel with
  | O => ret tt
  | S fuel' =>
      if (count <? num_lines)%Z then
        (c <- lift (classify a count) ;;
         set_style a c ;;
         draw_line l ax line_end line_pos ;;
         while_lines a l ax line_end num_lines fuel'
                     (line_pos + grid_size' l) (count + 1)%Z)%canvas
      else ret tt
  end.

(** Lines 71-94. *)
Definition draw_grid (a : Args) (l : Layout) : M unit :=
  for_each [(X, top_stop l, num_vertical_lines l);
            (Y, right_stop l, num_horizontal_lines l)]
    (fun '(ax, line_end, num_lines) =>
       let line_pos :=
         match ax with X => margin_left' l | Y => margin_bottom' l end in
       while_lines a l ax line_end num_lines (Z.to_nat num_lines) line_pos 0%Z).

(** Lines 96-102. *)
Definition draw_border (a : Args) (l : Layout) : M unit :=
  (emit (setStrokeColor (border_line_color a)) ;;
   emit (setLineWidth (border_line_thickness a)) ;;
   emit (line (margin_left' l) 0 (margin_left' l) (height a)) ;;
   emit (line 0 (top_stop l) (width a) (top_stop l)) ;;
   emit (line (right_stop l) 0 (right_stop l) (height a)) ;;
   emit (line (margin_left' l) (margin_bottom' l)
              (right_stop l) (margin_bottom' l)))%canvas.

(** Lines 104-107. *)
Definition draw_dividers (a : Args) (l : Layout) : M unit :=
  let thirds_spacing := (right_stop l - margin_left' l) / 3 in
  (emit (line (margin_left' l + thirds_spacing) (top_stop l)
              (margin_left' l + thirds_spacing) (height a)) ;;
   emit (line (margin_left' l + 2 * thirds_spacing) (top_stop l)
              (margin_left' l + 2 * thirds_spacing) (height a)))%canvas.

(** Lines 24-111. *)
Definition create_engineering_sheet (a : Args) : M unit :=
  (draw_background a ;;
   l <- lift (compute_layout a) ;;
   draw_grid a l ;;
   draw_border a l ;;
   draw_dividers a l ;;
   emit showPage ;;
   emit save)%canvas.

End Paper.

(** ** Closed forms used in the statements *)

Import Paper.

(** The value lines 43-47 leave in a space count, when nothing raises. *)
Definition spaces_of (usable g : Q) (k : Z) : Z :=
  (Qfloor (usable / g) / k * k)%Z.

(** [line_pos] after [i] executions of [line_pos += grid_size]. *)
Fixpoint pos_at (start g : Q) (i : nat) : Q :=
  match i with
  | O => start
  | S j => pos_at (start + g) g j
  end.

(** The branch of line 77 at line index [i]. *)
Definition class_of (k i : Z) : line_class :=
  if (i mod k =? 0)%Z then Major else Minor.

Definition is_major (c : line_class) : bool :=
  match c with Major => true | Minor => false end.

(** What one iteration of the loop issues. *)
Definition styled_line (a : Args) (l : Layout) (ax : axis) (line_end : Q)
    (c : line_class) (line_pos : Q) : list op :=
  [setStrokeColor (stroke_color a c); setLineWidth (thickness a c);
   match ax with
   | X => line line_pos (margin_bottom' l) line_pos line_end
   | Y => line (margin_left' l) line_pos line_end line_pos
   end].

(** The lines [first, first + n) of one axis, the first one at [start]. *)
Definition lines_from (a : Args) (l : Layout) (ax : axis) (line_end : Q)
    (first : Z) (start : Q) (n : nat) : list op :=
  flat_map (fun i => styled_line a l ax line_end
                       (class_of (major_line_interval a) (first + Z.of_nat i))
                       (pos_at start (grid_size' l) i))
           (seq 0 n).

Definition axis_start (l : Layout) (ax : axis) : Q :=
  match ax with X => margin_left' l | Y => margin_bottom' l end.
Definition axis_end (l : Layout) (ax : axis) : Q :=
  match ax with X => top_stop l | Y => right_stop l end.
Definition axis_lines (l : Layout) (ax : axis) : Z :=
  match ax with X => num_vertical_lines l | Y => num_horizontal_lines l end.

(** What lines 39-40 issue. *)
Definition background_ops (a : Args) : list op :=
  [setFillColor (background_color a); rect 0 0 (width a) (height a) 1].

(** All the lines of one axis: indices [0, num_lines). *)
Definition axis_ops (a : Args) (l : Layout) (ax : axis) : list op :=
  lines_from a l ax (axis_end l ax) 0 (axis_start l ax)
             (Z.to_nat (axis_lines l ax)).

(** How many line indices in [0, n) take the major branch. *)
Definition majors (k : Z) (n : nat) : nat :=
  List.length (filter (fun i => is_major (class_of k (Z.of_nat i))) (seq 0 n)).

Definition count_major (k num_lines : Z) : nat :=
  majors k (Z.to_nat num_lines).

Definition color_eqb (c d : Color) : bool :=
  match c, d with HexColor v, HexColor w => (v =? w)%Z end.

(** How many times an operation log selects stroke colour [c]. *)
Definition strokes_of (c : Color) (ops : list op) : nat :=
  List.length (filter (fun o => match o with
                                | setStrokeColor d => color_eqb d c
                                | _ => false
                                end) ops).

(** The segments an operation log draws. *)
Definition segments (ops : list op) : list (Q * Q * Q * Q) :=
  flat_map (fun o => match o with
                     | line x1 y1 x2 y2 => [(x1, y1, x2, y2)]
                     | _ => []
                     end) ops.

Definition seg_eq (s t : Q * Q * Q * Q) : Prop :=
  let '(a1, b1, c1, d1) := s in
  let '(a2, b2, c2, d2) := t in
  a1 == a2 /\ b1 == b2 /\ c1 == c2 /\ d1 == d2.

(** The border as the specification words it: four segments at
    [margin_left], [top_stop], [right_stop] and [margin_bottom], each from
    0 to the page's height or width. *)
Definition full_extent_border (a : Args) (l : Layout) : list (Q * Q * Q * Q) :=
  [(margin_left' l, 0, margin_left' l, height a);
   (0, top_stop l, width a, top_stop l);
   (right_stop l, 0, right_stop l, height a);
   (0, margin_bottom' l, width a, margin_bottom' l)].

(** Concrete calls: [create_engineering_sheet("sheet.pdf", margin=m,
    page_size=p, grid_size=g, major_line_interval=k, stretch_grid=s)],
    every other argument at its default. *)
Definition sheet (m : Q * Q * Q * Q) (p : Q * Q) (g : Q) (k : Z) (s : bool)
  : Args := {|
  filename := "sheet.pdf";
  margin := m;
  grid_size := g;
  page_size := p;
  major_line_color := darkgreen;
  major_line_thickness := 5 # 10;
  major_line_interval := k;
  minor_line_color := lightgreen;
  minor_line_thickness := 2 # 10;
  border_line_color := darkgreen;
  border_line_thickness := 15 # 10;
  background_color := HexColor 0xfaf3bd;
  stretch_grid := s;
  horizontal_center := true;
  vertical_center := true |}.

(** All defaults, on a letter page. *)
Definition letter_sheet : Args := default_args "sheet.pdf".

(** Every line is a major line. *)
Definition all_major : Args :=
  sheet (30, 30, 30, 30) (612, 792) 10 1 true.

(** * The code over Python's numbers *)

(** ** IEEE 754 binary64 *)

Module F64.

Local Open Scope Z_scope.

Definition prec : Z := 53.
Definition emax : Z := 1024.

Definition float : Set := spec_float.

Definition add : float -> float -> float := SFadd prec emax.
Definition sub : float -> float -> float := SFsub prec emax.
Definition mul : float -> float -> float := SFmul prec emax.
Definition div : float -> float -> float := SFdiv prec emax.
Definition ltb : float -> float -> bool := SFltb.

(** The double nearest to an integer (ties to even); an infinity when the
    integer is out of range. *)
Definition of_Z (z : Z) : float := binary_normalize prec emax z 0 false.

Definition zero : float := S754_zero false.
Definition one : float := of_Z 1.
Definition half : float := div one (of_Z 2).

(** [x == 0.0], true of both zeros. *)
Definition is_zero (x : float) : bool :=
  match x with S754_zero _ => true | _ => false end.

Definition signbit (x : float) : bool :=
  match x with
  | S754_zero s | S754_infinity s | S754_finite s _ _ => s
  | S754_nan => false
  end.

(** C's [copysign(0.0, x)]. *)
Definition copysign_zero (x : float) : float := S754_zero (signbit x).

(** C's [fmod]: the remainder of [x] by [y] with the sign of [x]; it is
    exact. *)
Definition fmod (x y : float) : float :=
  match x, y with
  | S754_nan, _ | _, S754_nan => S754_nan
  | S754_infinity _, _ => S754_nan
  | _, S754_zero _ => S754_nan
  | S754_zero _, _ => x
  | S754_finite _ _ _, S754_infinity _ => x
  | S754_finite sx mx ex, S754_finite _ my ey =>
      let e := Z.min ex ey in
      let r := Z.rem (Zpos mx * 2 ^ (ex - e)) (Zpos my * 2 ^ (ey - e)) in
      binary_normalize prec emax (cond_Zopp sx r) e sx
  end.

(** C's [floor]. *)
Definition floor (x : float) : float :=
  match x with
  | S754_finite s m e =>
      if 0 <=? e then x
      else binary_normalize prec emax (cond_Zopp s (Zpos m) / 2 ^ (- e)) 0 s
  | _ => x
  end.

(** The integer part of a finite double, toward zero. *)
Definition trunc (s : bool) (m : positive) (e : Z) : Z :=
  cond_Zopp s (if 0 <=? e then Zpos m * 2 ^ e else Zpos m / 2 ^ (- e)).

End F64.

(** ** Python's numbers *)

Module Python.

Local Open Scope Z_scope.

(** The exceptions of the numeric operators, the one a file that cannot be
    written raises, and any other class a library call may raise. *)
Inductive error : Set :=
| ZeroDivisionError
| OverflowError
| ValueError
| OSError
| OtherError (name : string).

Inductive result (A : Type) : Type :=
| Ok (a : A)
| Raise (e : error).

Arguments Ok {A} a.
Arguments Raise {A} e.

Definition failed {A} (r : result A) : Prop :=
  match r with Ok _ => False | Raise _ => True end.

Definition rbind {A B} (r : result A) (f : A -> result B) : result B :=
  match r with
  | Ok a => f a
  | Raise e => Raise e
  end.

Declare Scope python_scope.
Delimit Scope python_scope with python.
Notation "x <- r ;; k" := (rbind r (fun x => k))
  (at level 61, r at next level, right associativity) : python_scope.

(** An [int] or a [float]. *)
Inductive value : Set :=
| Int (z : Z)
| Float (f : F64.float).

(** The conversion the float operators apply to an [int] operand:
    correctly rounded, [OverflowError] when out of range. *)
Definition to_float (v : value) : result F64.float :=
  match v with
  | Float f => Ok f
  | Int z =>
      match F64.of_Z z with
      | S754_infinity _ => Raise OverflowError
      | f => Ok f
      end
  end.

Definition float_op (op : F64.float -> F64.float -> F64.float)
    (a b : value) : result value :=
  (x <- to_float a ;; y <- to_float b ;; Ok (Float (op x y)))%python.

(** [a - b], [a + b], [a * b] *)
Definition sub (a b : value) : result value :=
  match a, b with
  | Int x, Int y => Ok (Int (x - y))
  | _, _ => float_op F64.sub a b
  end.

Definition add (a b : value) : result value :=
  match a, b with
  | Int x, Int y => Ok (Int (x + y))
  | _, _ => float_op F64.add a b
  end.

Definition mul (a b : value) : result value :=
  match a, b with
  | Int x, Int y => Ok (Int (x * y))
  | _, _ => float_op F64.mul a b
  end.

(** [vx // wx] on floats: CPython's [float_floor_div] and
    [_float_div_mod]. *)
Definition float_floordiv (vx wx : F64.float) : result F64.float :=
  if F64.is_zero wx then Raise ZeroDivisionError
  else
    let rem := F64.fmod vx wx in
    let div := F64.div (F64.sub vx rem) wx in
    let div :=
      if F64.is_zero rem then div
      else if xorb (F64.ltb wx F64.zero) (F64.ltb rem F64.zero)
           then F64.sub div F64.one
           else div in
    if F64.is_zero div then Ok (F64.copysign_zero (F64.div vx wx))
    else
      let floordiv := F64.floor div in
      Ok (if F64.ltb F64.half (F64.sub div floordiv)
          then F64.add floordiv F64.one
          else floordiv).

(** [a // b] *)
Definition floordiv (a b : value) : result value :=
  match a, b with
  | Int x, Int y =>
      if y =? 0 then Raise ZeroDivisionError else Ok (Int (x / y))
  | _, _ =>
      (x <- to_float a ;; y <- to_float b ;;
       q <- float_floordiv x y ;; Ok (Float q))%python
  end.

(** The quotient of two ints, [y] nonzero, rounded once to the nearest
    double: CPython's [long_true_divide]. *)
Definition int_quotient (x y : Z) : F64.float :=
  let s := xorb (x <? 0) (y <? 0) in
  if x =? 0 then S754_zero s
  else
    let shift := Z.max 0 (55 + Z.log2 (Z.abs y) - Z.log2 (Z.abs x)) in
    let '(q, r) := Z.div_eucl (Z.abs x * 2 ^ shift) (Z.abs y) in
    binary_round_aux F64.prec F64.emax s q (- shift)
                     (new_location (Z.abs y) r).

(** [a / b]; the result is always a float. *)
Definition truediv (a b : value) : result F64.float :=
  match a, b with
  | Int x, Int y =>
      if y =? 0 then Raise ZeroDivisionError
      else match int_quotient x y with
           | S754_infinity _ => Raise OverflowError
           | f => Ok f
           end
  | _, _ =>
      (x <- to_float a ;; y <- to_float b ;;
       if F64.is_zero y then Raise ZeroDivisionError
       else Ok (F64.div x y))%python
  end.

(** [a % b] on ints. *)
Definition int_mod (a b : Z) : result Z :=
  if b =? 0 then Raise ZeroDivisionError else Ok (a mod b).

(** [int(v)] *)
Definition int (v : value) : result Z :=
  match v with
  | Int z => Ok z
  | Float S754_nan => Raise ValueError
  | Float (S754_infinity _) => Raise OverflowError
  | Float (S754_zero _) => Ok 0
  | Float (S754_finite s m e) => Ok (F64.trunc s m e)
  end.

(** [min(a, b)] on floats: the second when it is smaller, else the
    first. *)
Definition min (a b : F64.float) : F64.float :=
  if F64.ltb b a then b else a.

End Python.

(** ** paper.py over Python's numbers *)

Module Source.

Import Python.
Local Open Scope Z_scope.

(** The calls [create_engineering_sheet] makes into its libraries, with the
    Python values it passes: the constructor of the canvas, the one
    [log.debug] whose message is formatted from the arguments, and the
    methods of the canvas. *)
Inductive op : Set :=
| Canvas (filename : string) (pagesize : value * value)
| log_debug (margins : list value)
| setFillColor (c : Color)
| rect (x y w h : value) (fill : Z)
| setStrokeColor (c : Color)
| setLineWidth (t : value)
| line (x1 y1 x2 y2 : value)
| showPage
| save.

(** A command: the calls it made, in order, and how it ended.  A call that
    raised is the last of the list. *)
Definition M (A : Type) : Type := list op * result A.

Definition ret {A} (a : A) : M A := ([], Ok a).

Definition bind {A B} (m : M A) (f : A -> M B) : M B :=
  match m with
  | (ops, Ok a) => let (ops', r) := f a in (ops ++ ops', r)
  | (ops, Raise e) => (ops, Raise e)
  end.

Definition lift {A} (r : result A) : M A := ([], r).

Declare Scope source_scope.
Delimit Scope source_scope with source.
Notation "x <- m ;; k" := (bind m (fun x => k))
  (at level 61, m at next level, right associativity) : source_scope.
Notation "m ;; k" := (bind m (fun _ => k))
  (at level 61, right associativity) : source_scope.

Definition ops_of {A} (m : M A) : list op := fst m.
Definition outcome {A} (m : M A) : result A := snd m.

Fixpoint for_each {A} (l : list A) (body : A -> M unit) : M unit :=
  match l with
  | [] => ret tt
  | x :: l' => (body x ;; for_each l' body)%source
  end.

(** [mult_floor], lines 21-22. *)
Definition mult_floor (n multiple : value) : result Z :=
  (q <- floordiv n multiple ;;
   p <- mul q multiple ;;
   int p)%python.

(** The arguments of [create_engineering_sheet].  The numbers are ints or
    floats, as the caller passes them; [major_line_interval] is an int. *)
Record Args : Type := {
  filename : string;
  margin : value * value * value * value;
  grid_size : value;
  page_size : value * value;
  major_line_color : Color;
  major_line_thickness : value;
  major_line_interval : Z;
  minor_line_color : Color;
  minor_line_thickness : value;
  border_line_color : Color;
  border_line_thickness : value;
  background_color : Color;
  stretch_grid : bool;
  horizontal_center : bool;
  vertical_center : bool
}.

Definition margin_top (a : Args) : value := let '(t, _, _, _) := margin a in t.
Definition margin_left (a : Args) : value := let '(_, l, _, _) := margin a in l.
Definition margin_bottom (a : Args) : value := let '(_, _, b, _) := margin a in b.
Definition margin_right (a : Args) : value := let '(_, _, _, r) := margin a in r.
Definition width (a : Args) : value := fst (page_size a).
Definition height (a : Args) : value := snd (page_size a).

(** [width - margin_left - margin_right] and
    [height - margin_bottom - margin_top], lines 43-44 and 50-51. *)
Definition usable_width (a : Args) : result value :=
  (d <- sub (width a) (margin_left a) ;; sub d (margin_right a))%python.
Definition usable_height (a : Args) : result value :=
  (d <- sub (height a) (margin_bottom a) ;; sub d (margin_top a))%python.

(** Lines 43-47. *)
Definition count_spaces (a : Args) : result (Z * Z) :=
  (uw <- usable_width a ;;
   v <- floordiv uw (grid_size a) ;;
   uh <- usable_height a ;;
   h <- floordiv uh (grid_size a) ;;
   nv <- mult_floor v (Int (major_line_interval a)) ;;
   nh <- mult_floor h (Int (major_line_interval a)) ;;
   Ok (nv, nh))%python.

(** Lines 49-53: [grid_size] after the [stretch_grid] block. *)
Definition stretch (a : Args) (nv nh : Z) : result value :=
  if stretch_grid a then
    (uw <- usable_width a ;;
     gv <- truediv uw (Int nv) ;;
     uh <- usable_height a ;;
     gh <- truediv uh (Int nh) ;;
     Ok (Float (min gv gh)))%python
  else Ok (grid_size a).

(** The local variables the drawing passes read.  A primed name is the
    variable of that name once the source has reassigned it. *)
Record Layout : Type := {
  num_vertical_spaces : Z;
  num_horizontal_spaces : Z;
  grid_size' : value;
  top_stop : value;
  right_stop : value;
  num_vertical_lines : Z;
  num_horizontal_lines : Z;
  margin_left' : value;
  margin_bottom' : value;
  horizontal_delta : option F64.float;
  vertical_delta : option F64.float
}.

(** Lines 55-58. *)
Definition stops (a : Args) (nv nh : Z) (g : value) : result Layout :=
  (th <- mul (Int nh) g ;;
   ts <- add (margin_bottom a) th ;;
   rw <- mul (Int nv) g ;;
   rs <- add (margin_left a) rw ;;
   Ok {| num_vertical_spaces := nv;
         num_horizontal_spaces := nh;
         grid_size' := g;
         top_stop := ts;
         right_stop := rs;
         num_vertical_lines := nv + 1;
         num_horizontal_lines := nh + 1;
         margin_left' := margin_left a;
         margin_bottom' := margin_bottom a;
         horizontal_delta := None;
         vertical_delta := None |})%python.

(** Lines 60-64. *)
Definition center_horizontal (a : Args) (l : Layout) : result Layout :=
  if horizontal_center a then
    (d1 <- sub (width a) (margin_right a) ;;
     d2 <- sub d1 (right_stop l) ;;
     delta <- truediv d2 (Int 2) ;;
     rs <- add (right_stop l) (Float delta) ;;
     ml <- add (margin_left' l) (Float delta) ;;
     Ok {| num_vertical_spaces := num_vertical_spaces l;
           num_horizontal_spaces := num_horizontal_spaces l;
           grid_size' := grid_size' l;
           top_stop := top_stop l;
           right_stop := rs;
           num_vertical_lines := num_vertical_lines l;
           num_horizontal_lines := num_horizontal_lines l;
           margin_left' := ml;
           margin_bottom' := margin_bottom' l;
           horizontal_delta := Some delta;
           vertical_delta := vertical_delta l |})%python
  else Ok l.

(** Lines 65-68. *)
Definition center_vertical (a : Args) (l : Layout) : result Layout :=
  if vertical_center a then
    (d1 <- sub (height a) (margin_top a) ;;
     d2 <- sub d1 (top_stop l) ;;
     delta <- truediv d2 (Int 2) ;;
     ts <- add (top_stop l) (Float delta) ;;
     mb <- add (margin_bottom' l) (Float delta) ;;
     Ok {| num_vertical_spaces := num_vertical_spaces l;
           num_horizontal_spaces := num_horizontal_spaces l;
           grid_size' := grid_size' l;
           top_stop := ts;
           right_stop := right_stop l;
           num_vertical_lines := num_vertical_lines l;
           num_horizontal_lines := num_horizontal_lines l;
           margin_left' := margin_left' l;
           margin_bottom' := mb;
           horizontal_delta := horizontal_delta l;
           vertical_delta := Some delta |})%python
  else Ok l.

(** Lines 43-68. *)
Definition compute_layout (a : Args) : result Layout :=
  (n <- count_spaces a ;;
   g <- stretch a (fst n) (snd n) ;;
   l0 <- stops a (fst n) (snd n) g ;;
   l1 <- center_horizontal a l0 ;;
   center_vertical a l1)%python.

(** How a library call ends is not decided by [paper.py]: [c.save()]
    raises when the file cannot be written, and a call may reject its
    arguments.  The functions below take it as [lib]. *)
Section Calls.

Variable lib : op -> result unit.

(** One call: it is made, and ends as [lib] says. *)
Definition emit (o : op) : M unit := ([o], lib o).

(** Lines 38-40. *)
Definition draw_background (a : Args) : M unit :=
  (emit (setFillColor (background_color a)) ;;
   emit (rect (Int 0) (Int 0) (width a) (height a) 1))%source.

Inductive axis : Set := X | Y.

Inductive line_class : Set := Major | Minor.

Definition stroke_color (a : Args) (c : line_class) : Color :=
  match c with Major => major_line_color a | Minor => minor_line_color a end.
Definition thickness (a : Args) (c : line_class) : value :=
  match c with
  | Major => major_line_thickness a
  | Minor => minor_line_thickness a
  end.

(** Lines 77-82. *)
Definition classify (a : Args) (count : Z) : result line_class :=
  (r <- int_mod count (major_line_interval a) ;;
   Ok (if r =? 0 then Major else Minor))%python.

Definition set_style (a : Args) (c : line_class) : M unit :=
  (emit (setStrokeColor (stroke_color a c)) ;;
   emit (setLineWidth (thickness a c)))%source.

(** Lines 85-88. *)
Definition draw_line (l : Layout) (ax : axis) (line_end line_pos : value)
  : M unit :=
  match ax with
  | X => emit (line line_pos (margin_bottom' l) line_pos line_end)
  | Y => emit (line (margin_left' l) line_pos line_end line_pos)
  end.

(** Lines 75-94: the [while count < num_lines] loop, with fuel for
    [num_lines] iterations. *)
Fixpoint while_lines (a : Args) (l : Layout) (ax : axis) (line_end : value)
    (num_lines : Z) (fuel : nat) (line_pos : value) (count : Z) : M unit :=
  match fuel with
  | O => ret tt
  | S fuel' =>
      if count <? num_lines then
        (c <- lift (classify a count) ;;
         set_style a c ;;
         draw_line l ax line_end line_pos ;;
         line_pos' <- lift (add line_pos (grid_size' l)) ;;
         while_lines a l ax line_end num_lines fuel' line_pos' (count + 1))%source
      else ret tt
  end.

(** Lines 71-94. *)
Definition draw_grid (a : Args) (l : Layout) : M unit :=
  for_each [(X, top_stop l, num_vertical_lines l);
            (Y, right_stop l, num_horizontal_lines l)]
    (fun '(ax, line_end, num_lines) =>
       let line_pos :=
         match ax with X => margin_left' l | Y => margin_bottom' l end in
       while_lines a l ax line_end num_lines (Z.to_nat num_lines) line_pos 0).

(** Lines 96-102. *)
Definition draw_border (a : Args) (l : Layout) : M unit :=
  (emit (setStrokeColor (border_line_color a)) ;;
   emit (setLineWidth (border_line_thickness a)) ;;
   emit (line (margin_left' l) (Int 0) (margin_left' l) (height a)) ;;
   emit (line (Int 0) (top_stop l) (width a) (top_stop l)) ;;
   emit (line (right_stop l) (Int 0) (right_stop l) (height a)) ;;
   emit (line (margin_left' l) (margin_bottom' l)
              (right_stop l) (margin_bottom' l)))%source.

(** Lines 104-107. *)
Definition draw_dividers (a : Args) (l : Layout) : M unit :=
  (d <- lift (sub (right_stop l) (margin_left' l)) ;;
   thirds_spacing <- lift (truediv d (Int 3)) ;;
   x1 <- lift (add (margin_left' l) (Float thirds_spacing)) ;;
   x1' <- lift (add (margin_left' l) (Float thirds_spacing)) ;;
   emit (line x1 (top_stop l) x1' (height a)) ;;
   t2 <- lift (mul (Int 2) (Float thirds_spacing)) ;;
   x2 <- lift (add (margin_left' l) t2) ;;
   t2' <- lift (mul (Int 2) (Float thirds_spacing)) ;;
   x2' <- lift (add (margin_left' l) t2') ;;
   emit (line x2 (top_stop l) x2' (height a)))%source.

(** Lines 24-111. *)
Definition create_engineering_sheet (a : Args) : M unit :=
  (emit (Canvas (filename a) (page_size a)) ;;
   emit (log_debug [margin_top a; margin_right a; margin_bottom a;
                    margin_left a]) ;;
   draw_background a ;;
   l <- lift (compute_layout a) ;;
   draw_grid a l ;;
   draw_border a l ;;
   draw_dividers a l ;;
   emit showPage ;;
   emit save)%source.

End Calls.


End Source.

(** ** Statements over [Source] *)

(** [v == 0], for an int or a float. *)
Definition is_zero (v : Python.value) : bool :=
  match v with
  | Python.Int z => (z =? 0)%Z
  | Python.Float f => F64.is_zero f
  end.

(** [v] is a zero or a NaN. *)
Definition zero_or_nan (v : Python.value) : Prop :=
  is_zero v = true \/ v = Python.Float S754_nan.

(** The calls of lines 32-40: the canvas, the log message, the
    background. *)
Definition opening (a : Source.Args) : list Source.op :=
  [Source.Canvas (Source.filename a) (Source.page_size a);
   Source.log_debug [Source.margin_top a; Source.margin_right a;
                     Source.margin_bottom a; Source.margin_left a];
   Source.setFillColor (Source.background_color a);
   Source.rect (Python.Int 0) (Python.Int 0) (Source.width a)
               (Source.height a) 1].

(** Every call of a list returns. *)
Definition returns (lib : Source.op -> Python.result unit)
    (ops : list Source.op) : Prop :=
  Forall (fun o => lib o = Python.Ok tt) ops.

(** A command that returned has seen each of its calls return. *)
Definition all_returned (lib : Source.op -> Python.result unit) {A}
    (m : Source.M A) : Prop :=
  forall x, Source.outcome m = Python.Ok x -> returns lib (Source.ops_of m).

(** Lines 32-107: everything before [c.showPage()]. *)
Definition drawing (lib : Source.op -> Python.result unit) (a : Source.Args)
  : Source.M unit :=
  Source.bind
    (Source.emit lib (Source.Canvas (Source.filename a) (Source.page_size a)))
    (fun _ =>
  Source.bind
    (Source.emit lib
       (Source.log_debug [Source.margin_top a; Source.margin_right a;
                          Source.margin_bottom a; Source.margin_left a]))
    (fun _ =>
  Source.bind (Source.draw_background lib a) (fun _ =>
  Source.bind (Source.lift (Source.compute_layout a)) (fun l =>
  Source.bind (Source.draw_grid lib a l) (fun _ =>
  Source.bind (Source.draw_border lib a l) (fun _ =>
  Source.draw_dividers lib a l)))))).

(** A call other than [showPage] and [save]. *)
Definition is_drawing (o : Source.op) : bool :=
  match o with
  | Source.showPage | Source.save => false
  | _ => true
  end.

Definition has_save (ops : list Source.op) : bool :=
  existsb (fun o => match o with Source.save => true | _ => false end) ops.

Definition drawing_only {A} (m : Source.M A) : Prop :=
  Forall (fun o => is_drawing o = true) (Source.ops_of m).

(** A library whose calls all return, and one whose [save] cannot write
    the file. *)
Definition obliging (o : Source.op) : Python.result unit := Python.Ok tt.

Definition unwritable (o : Source.op) : Python.result unit :=
  match o with
  | Source.save => Python.Raise Python.OSError
  | _ => Python.Ok tt
  end.

(** Doubles used in the concrete calls: 0.5, 0.2, 1.5. *)
Definition f_half : F64.float := F64.div (F64.of_Z 1) (F64.of_Z 2).
Definition f_fifth : F64.float := F64.div (F64.of_Z 1) (F64.of_Z 5).
Definition f_three_halves : F64.float := F64.div (F64.of_Z 3) (F64.of_Z 2).

(** [create_engineering_sheet("sheet.pdf", margin=m, page_size=p,
    grid_size=g, major_line_interval=k, stretch_grid=s)], every other
    argument at its default. *)
Definition call (m : Python.value * Python.value * Python.value * Python.value)
    (p : Python.value * Python.value) (g : Python.value) (k : Z) (s : bool)
  : Source.Args := {|
  Source.filename := "sheet.pdf";
  Source.margin := m;
  Source.grid_size := g;
  Source.page_size := p;
  Source.major_line_color := darkgreen;
  Source.major_line_thickness := Python.Float f_half;
  Source.major_line_interval := k;
  Source.minor_line_color := lightgreen;
  Source.minor_line_thickness := Python.Float f_fifth;
  Source.border_line_color := darkgreen;
  Source.border_line_thickness := Python.Float f_three_halves;
  Source.background_color := HexColor 0xfaf3bd;
  Source.stretch_grid := s;
  Source.horizontal_center := true;
  Source.vertical_center := true |}.

(** [pagesizes.letter], [(612.0, 792.0)]. *)
Definition letter : Python.value * Python.value :=
  (Python.Float (F64.of_Z 612), Python.Float (F64.of_Z 792)).

Definition ints (t l b r : Z)
  : Python.value * Python.value * Python.value * Python.value :=
  (Python.Int t, Python.Int l, Python.Int b, Python.Int r).

(** All defaults. *)
Definition default_call : Source.Args :=
  call (ints 30 30 30 30) letter (Python.Int 10) 5 true.


(** [margin=(30, 400, 30, 400)]: a usable width of -188. *)
Definition call_wide_margins : Source.Args :=
  call (ints 30 400 30 400) letter (Python.Int 10) 5 true.

(** [margin=(30, 306, 30, 306)]: a usable width of 0. *)
Definition call_no_width : Source.Args :=
  call (ints 30 306 30 306) letter (Python.Int 10) 5 true.

(** [grid_size=1000]: a cell larger than the page. *)
Definition call_huge_cell : Source.Args :=
  call (ints 30 30 30 30) letter (Python.Int 1000) 5 true.




(** * The drawing in exact arithmetic: properties *)

(** ** Exact arithmetic: facts *)

Lemma floordiv_ok (a b : Q) :
  ~ b == 0 -> Py.floordiv a b = Ok (inject_Z (Qfloor (a / b))).
Proof.
  intros Hb. unfold Py.floordiv.
  destruct (Qeq_bool b 0) eqn:E; [| reflexivity].
  apply Qeq_bool_eq in E. contradiction.
Qed.

Lemma floordiv_zero (a b : Q) :
  b == 0 -> Py.floordiv a b = Raise ZeroDivisionError.
Proof.
  intros Hb. unfold Py.floordiv. now rewrite (Qeq_eq_bool _ _ Hb).
Qed.

Lemma int_inject_mul (z k : Z) : Py.int (inject_Z z * inject_Z k) = (z * k)%Z.
Proof. unfold Py.int. simpl. apply Z.quot_1_r. Qed.

Lemma inject_Z_nonzero (k : Z) : k <> 0%Z -> ~ inject_Z k == 0.
Proof. intros Hk H. apply Hk. unfold Qeq in H. simpl in H. lia. Qed.

Lemma mult_floor_int (n k : Z) :
  k <> 0%Z -> mult_floor (inject_Z n) (inject_Z k) = Ok (n / k * k)%Z.
Proof.
  intros Hk. unfold mult_floor.
  rewrite floordiv_ok by now apply inject_Z_nonzero.
  cbn [rbind]. rewrite int_inject_mul. now rewrite <- Zdiv_Qdiv.
Qed.

Lemma truediv_ok (a b : Q) : ~ b == 0 -> Py.truediv a b = Ok (a / b).
Proof.
  intros Hb. unfold Py.truediv.
  destruct (Qeq_bool b 0) eqn:E; [| reflexivity].
  apply Qeq_bool_eq in E. contradiction.
Qed.

(** *** Lines 43-47 *)

Lemma count_spaces_ok (a : Args) :
  ~ grid_size a == 0 -> major_line_interval a <> 0%Z ->
  count_spaces a =
    Ok (spaces_of (usable_width a) (grid_size a) (major_line_interval a),
        spaces_of (usable_height a) (grid_size a) (major_line_interval a)).
Proof.
  intros Hg Hk. unfold count_spaces.
  rewrite !floordiv_ok by exact Hg. cbn [rbind].
  rewrite !mult_floor_int by exact Hk. reflexivity.
Qed.

Lemma count_spaces_grid_zero (a : Args) :
  grid_size a == 0 -> count_spaces a = Raise ZeroDivisionError.
Proof.
  intros Hg. unfold count_spaces. now rewrite floordiv_zero.
Qed.

Lemma count_spaces_interval_zero (a : Args) :
  major_line_interval a = 0%Z -> count_spaces a = Raise ZeroDivisionError.
Proof.
  intros Hk.
  destruct (Qeq_dec (grid_size a) 0) as [Hg | Hg].
  - now apply count_spaces_grid_zero.
  - unfold count_spaces, mult_floor. rewrite Hk.
    rewrite !floordiv_ok by exact Hg. reflexivity.
Qed.

Lemma count_spaces_inv (a : Args) (nv nh : Z) :
  count_spaces a = Ok (nv, nh) ->
  ~ grid_size a == 0 /\ major_line_interval a <> 0%Z /\
  nv = spaces_of (usable_width a) (grid_size a) (major_line_interval a) /\
  nh = spaces_of (usable_height a) (grid_size a) (major_line_interval a).
Proof.
  intros H.
  destruct (Qeq_dec (grid_size a) 0) as [Hg | Hg].
  { rewrite count_spaces_grid_zero in H by exact Hg. discriminate. }
  destruct (Z.eq_dec (major_line_interval a) 0) as [Hk | Hk].
  { rewrite count_spaces_interval_zero in H by exact Hk. discriminate. }
  rewrite count_spaces_ok in H by assumption.
  injection H as <- <-. auto.
Qed.

Lemma count_spaces_exn (a : Args) (e : exn) :
  count_spaces a = Raise e -> e = ZeroDivisionError.
Proof.
  intros H.
  destruct (Qeq_dec (grid_size a) 0) as [Hg | Hg].
  { rewrite count_spaces_grid_zero in H by exact Hg. congruence. }
  destruct (Z.eq_dec (major_line_interval a) 0) as [Hk | Hk].
  { rewrite count_spaces_interval_zero in H by exact Hk. congruence. }
  rewrite count_spaces_ok in H by assumption. discriminate.
Qed.

(** *** Lines 49-53 *)

Lemma stretch_off (a : Args) (nv nh : Z) :
  stretch_grid a = false -> stretch a nv nh = Ok (grid_size a).
Proof. intros H. unfold stretch. now rewrite H. Qed.

Lemma stretch_ok (a : Args) (nv nh : Z) :
  stretch_grid a = true -> nv <> 0%Z -> nh <> 0%Z ->
  stretch a nv nh =
    Ok (Py.min (usable_width a / inject_Z nv) (usable_height a / inject_Z nh)).
Proof.
  intros H Hv Hh. unfold stretch. rewrite H.
  rewrite !truediv_ok by now apply inject_Z_nonzero. reflexivity.
Qed.

Lemma stretch_zero (a : Args) (nv nh : Z) :
  stretch_grid a = true -> nv = 0%Z \/ nh = 0%Z ->
  stretch a nv nh = Raise ZeroDivisionError.
Proof.
  intros H Hz. unfold stretch. rewrite H.
  destruct (Z.eq_dec nv 0) as [-> | Hv]; [reflexivity |].
  destruct Hz as [-> | ->]; [contradiction |].
  rewrite truediv_ok by now apply inject_Z_nonzero. reflexivity.
Qed.

Lemma stretch_exn (a : Args) (nv nh : Z) (e : exn) :
  stretch a nv nh = Raise e ->
  e = ZeroDivisionError /\ stretch_grid a = true /\ (nv = 0%Z \/ nh = 0%Z).
Proof.
  intros H. destruct (stretch_grid a) eqn:E.
  - destruct (Z.eq_dec nv 0) as [Hv | Hv].
    { rewrite stretch_zero in H by auto. split; [congruence | auto]. }
    destruct (Z.eq_dec nh 0) as [Hh | Hh].
    { rewrite stretch_zero in H by auto. split; [congruence | auto]. }
    rewrite stretch_ok in H by assumption. discriminate.
  - rewrite stretch_off in H by exact E. discriminate.
Qed.

(** *** Lines 43-68 *)

Lemma compute_layout_exn (a : Args) (e : exn) :
  compute_layout a = Raise e -> e = ZeroDivisionError.
Proof.
  unfold compute_layout. intros H.
  destruct (count_spaces a) as [[nv nh] |] eqn:E; cbn [rbind fst snd] in H.
  - destruct (stretch a nv nh) eqn:S; cbn [rbind] in H; [discriminate |].
    injection H as <-. now apply stretch_exn in S.
  - injection H as <-. now apply count_spaces_exn in E.
Qed.

Lemma compute_layout_inv (a : Args) (l : Layout) :
  compute_layout a = Ok l ->
  exists nv nh g,
    count_spaces a = Ok (nv, nh) /\ stretch a nv nh = Ok g /\
    l = center_vertical a (center_horizontal a (stops a nv nh g)).
Proof.
  unfold compute_layout. intros H.
  destruct (count_spaces a) as [[nv nh] |] eqn:E; cbn [rbind fst snd] in H;
    [| discriminate].
  destruct (stretch a nv nh) as [g |] eqn:S; cbn [rbind] in H; [| discriminate].
  injection H as <-. now exists nv, nh, g.
Qed.

Lemma compute_layout_interval (a : Args) (l : Layout) :
  compute_layout a = Ok l -> major_line_interval a <> 0%Z.
Proof.
  intros H. apply compute_layout_inv in H as (nv & nh & g & E & _ & _).
  now apply count_spaces_inv in E.
Qed.

(** *** The drawing loop, lines 75-94 *)

Lemma classify_ok (a : Args) (count : Z) :
  major_line_interval a <> 0%Z ->
  classify a count = Ok (class_of (major_line_interval a) count).
Proof.
  intros Hk. unfold classify, Py.mod_, class_of.
  destruct (Z.eqb_spec (major_line_interval a) 0);
    [contradiction | reflexivity].
Qed.

Lemma flat_map_seq_shift {A} (f : nat -> list A) (n s : nat) :
  flat_map f (seq (S s) n) = flat_map (fun i => f (S i)) (seq s n).
Proof.
  revert s. induction n as [| n IH]; intros s; [reflexivity |].
  cbn [seq flat_map]. now rewrite IH.
Qed.

Lemma lines_from_step (a : Args) (l : Layout) (ax : axis) (line_end : Q)
    (first : Z) (start : Q) (n : nat) :
  lines_from a l ax line_end first start (S n) =
  styled_line a l ax line_end (class_of (major_line_interval a) first) start
    ++ lines_from a l ax line_end (first + 1) (start + grid_size' l) n.
Proof.
  unfold lines_from. cbn [seq flat_map]. rewrite flat_map_seq_shift.
  cbn [pos_at Z.of_nat]. rewrite Z.add_0_r. f_equal.
  apply flat_map_ext. intros i. do 2 f_equal. lia.
Qed.

Lemma while_lines_closed (a : Args) (l : Layout) (ax : axis) (line_end : Q)
    (num_lines : Z) :
  major_line_interval a <> 0%Z ->
  forall (fuel : nat) (line_pos : Q) (count : Z),
    (Z.to_nat (num_lines - count) <= fuel)%nat ->
    while_lines a l ax line_end num_lines fuel line_pos count =
    (lines_from a l ax line_end count line_pos (Z.to_nat (num_lines - count)),
     Ok tt).
Proof.
  intros Hk. induction fuel as [| fuel IH]; intros line_pos count Hfuel.
  - replace (Z.to_nat (num_lines - count)) with O by lia. reflexivity.
  - cbn [while_lines]. destruct (Z.ltb_spec count num_lines) as [Hlt | Hge].
    + replace (Z.to_nat (num_lines - count))
        with (S (Z.to_nat (num_lines - (count + 1)))) in * by lia.
      rewrite lines_from_step, classify_ok by exact Hk.
      rewrite IH by lia.
      destruct ax; reflexivity.
    + replace (Z.to_nat (num_lines - count)) with O by lia. reflexivity.
Qed.

Lemma pos_at_closed (start g : Q) (i : nat) :
  pos_at start g i == start + inject_Z (Z.of_nat i) * g.
Proof.
  revert start. induction i as [| i IH]; intros start.
  - cbn. ring.
  - cbn [pos_at]. rewrite IH, Nat2Z.inj_succ. unfold Z.succ.
    rewrite inject_Z_plus. ring.
Qed.

(** *** The whole call *)

Lemma draw_grid_closed (a : Args) (l : Layout) :
  major_line_interval a <> 0%Z ->
  draw_grid a l = (axis_ops a l X ++ axis_ops a l Y, Ok tt).
Proof.
  intros Hk. unfold draw_grid. cbn [for_each].
  rewrite !while_lines_closed by (exact Hk || lia).
  unfold axis_ops, bind, ret. cbn [axis_lines axis_end axis_start].
  rewrite !Z.sub_0_r, app_nil_r. reflexivity.
Qed.

Lemma sheet_ok (a : Args) (l : Layout) :
  compute_layout a = Ok l ->
  create_engineering_sheet a =
  (background_ops a ++ (axis_ops a l X ++ axis_ops a l Y)
     ++ ops_of (draw_border a l) ++ ops_of (draw_dividers a l)
     ++ [showPage; save],
   Ok tt).
Proof.
  intros H. unfold create_engineering_sheet. rewrite H.
  unfold lift, draw_background, emit. cbn [bind app].
  rewrite (draw_grid_closed a l)
    by (eapply compute_layout_interval; eassumption).
  reflexivity.
Qed.

Lemma sheet_raise (a : Args) (e : exn) :
  compute_layout a = Raise e ->
  create_engineering_sheet a = (background_ops a, Raise e).
Proof.
  intros H. unfold create_engineering_sheet. rewrite H. reflexivity.
Qed.

Lemma sheet_cases (a : Args) :
  (exists l, compute_layout a = Ok l) \/
  compute_layout a = Raise ZeroDivisionError.
Proof.
  destruct (compute_layout a) as [l | e] eqn:E; [left; now exists l |].
  right. now rewrite (compute_layout_exn a e E).
Qed.

(** ** Properties of the layout and of the drawing *)

Lemma spaces_of_mod (u g : Q) (k : Z) : (spaces_of u g k mod k = 0)%Z.
Proof.
  unfold spaces_of. destruct (Z.eq_dec k 0) as [-> | Hk].
  - now rewrite Z.mul_0_r.
  - now apply Z.mod_mul.
Qed.

Lemma sheet_outcome_ok (a : Args) :
  outcome (create_engineering_sheet a) = Ok tt ->
  exists l, compute_layout a = Ok l.
Proof.
  intros H. destruct (sheet_cases a) as [Hl | Hr]; [exact Hl |].
  rewrite (sheet_raise _ _ Hr) in H. discriminate.
Qed.

(** C3, as the code has it.  Every successful call draws, between the
    grid and the dividers, exactly four border segments, at margin_left,
    top_stop, right_stop and margin_bottom (as they stand after
    centering); the left, top and right ones run across the full page
    (0 to height, 0 to width, 0 to height) and the bottom one runs from
    margin_left to right_stop only. *)
Theorem border_segments (a : Args) :
  outcome (create_engineering_sheet a) = Ok tt ->
  exists l,
    compute_layout a = Ok l /\
    ops_of (create_engineering_sheet a) =
      (background_ops a ++ axis_ops a l X ++ axis_ops a l Y)
      ++ ops_of (draw_border a l)
      ++ (ops_of (draw_dividers a l) ++ [showPage; save]) /\
    segments (ops_of (draw_border a l)) =
      [(margin_left' l, 0, margin_left' l, height a);
       (0, top_stop l, width a, top_stop l);
       (right_stop l, 0, right_stop l, height a);
       (margin_left' l, margin_bottom' l, right_stop l, margin_bottom' l)].
Proof.
  intros H. destruct (sheet_outcome_ok a H) as [l Hl]. exists l.
  split; [exact Hl |]. split; [| reflexivity].
  rewrite (sheet_ok a l Hl). cbn [ops_of fst].
  now rewrite <- !app_assoc.
Qed.

Lemma border_segments_witness :
  exists l,
    compute_layout letter_sheet = Ok l /\
    ops_of (create_engineering_sheet letter_sheet) =
      (background_ops letter_sheet ++ axis_ops letter_sheet l X
         ++ axis_ops letter_sheet l Y)
      ++ ops_of (draw_border letter_sheet l)
      ++ (ops_of (draw_dividers letter_sheet l) ++ [showPage; save]) /\
    segments (ops_of (draw_border letter_sheet l)) =
      [(margin_left' l, 0, margin_left' l, height letter_sheet);
       (0, top_stop l, width letter_sheet, top_stop l);
       (right_stop l, 0, right_stop l, height letter_sheet);
       (margin_left' l, margin_bottom' l, right_stop l, margin_bottom' l)].
Proof.
  apply (border_segments letter_sheet). vm_compute. reflexivity.
Defined.

(** C3 refuted at the default call on a letter page: the fourth border
    segment starts at x = 30 and stops at x = 582, not at 0 and 612. *)
Lemma bottom_border_inside_margins :
  outcome (create_engineering_sheet letter_sheet) = Ok tt /\
  exists l,
    compute_layout letter_sheet = Ok l /\
    nth_error (segments (ops_of (draw_border letter_sheet l))) 3
      = Some (3300 # 110, 4920 # 110, 3521100 # 6050, 4920 # 110) /\
    ~ Forall2 seg_eq (segments (ops_of (draw_border letter_sheet l)))
                     (full_extent_border letter_sheet l).
Proof.
  split; [vm_compute; reflexivity |].
  eexists. split; [vm_compute; reflexivity |].
  split; [reflexivity |].
  unfold full_extent_border. cbn. intros H.
  repeat match goal with
         | H : Forall2 _ (_ :: _) (_ :: _) |- _ => inversion H; clear H; subst
         end.
  match goal with
  | H : seg_eq (3300 # 110, 4920 # 110, _, _) _ |- _ => destruct H as [H0 _]
  end.
  discriminate H0.
Qed.

Lemma lines_from_nth (a : Args) (l : Layout) (ax : axis) (line_end : Q)
    (n : nat) :
  forall (first : Z) (start : Q) (i : nat),
    (i < n)%nat ->
    let c := class_of (major_line_interval a) (first + Z.of_nat i) in
    let p := pos_at start (grid_size' l) i in
    let ops := lines_from a l ax line_end first start n in
    nth_error ops (3 * i) = Some (setStrokeColor (stroke_color a c)) /\
    nth_error ops (3 * i + 1) = Some (setLineWidth (thickness a c)) /\
    nth_error ops (3 * i + 2) =
      Some (match ax with
            | X => line p (margin_bottom' l) p line_end
            | Y => line (margin_left' l) p line_end p
            end).
Proof.
  induction n as [| n IH]; intros first start i Hi; [lia |].
  cbv zeta. rewrite lines_from_step.
  destruct i as [| i].
  - cbn [Z.of_nat]. rewrite Z.add_0_r. repeat split; reflexivity.
  - replace (3 * S i)%nat with (S (S (S (3 * i)))) by lia.
    cbn [styled_line app Nat.add nth_error pos_at].
    replace (first + Z.of_nat (S i))%Z with (first + 1 + Z.of_nat i)%Z by lia.
    apply (IH (first + 1)%Z (start + grid_size' l) i). lia.
Qed.

Lemma lines_from_length (a : Args) (l : Layout) (ax : axis) (line_end : Q)
    (n : nat) :
  forall (first : Z) (start : Q),
    List.length (lines_from a l ax line_end first start n) = (3 * n)%nat.
Proof.
  induction n as [| n IH]; intros first start; [reflexivity |].
  rewrite lines_from_step, length_app, IH. cbn [styled_line List.length]. lia.
Qed.

Lemma majors_step (k : Z) (n : nat) :
  majors k (S n) =
  (majors k n + if (Z.of_nat n mod k =? 0)%Z then 1 else 0)%nat.
Proof.
  unfold majors. rewrite seq_S, filter_app, length_app. cbn [Nat.add filter].
  unfold class_of. destruct (Z.of_nat n mod k =? 0)%Z; reflexivity.
Qed.

Lemma color_eqb_refl (c : Color) : color_eqb c c = true.
Proof. destruct c as [v]. apply Z.eqb_refl. Qed.

Lemma filter_seq_shift (P : Z -> bool) (first : Z) (n : nat) :
  forall s : nat,
    filter (fun i => P (first + Z.of_nat i)%Z) (seq (S s) n) =
    map S (filter (fun i => P (first + 1 + Z.of_nat i)%Z) (seq s n)).
Proof.
  induction n as [| n IH]; intros s; [reflexivity |].
  cbn [seq filter]. rewrite IH.
  replace (first + Z.of_nat (S s))%Z with (first + 1 + Z.of_nat s)%Z by lia.
  now destruct (P (first + 1 + Z.of_nat s)%Z).
Qed.

(** With distinct major and minor colours, the strokes in the major colour
    are the lines on the major branch. *)
Lemma strokes_lines_from (a : Args) (l : Layout) (ax : axis) (line_end : Q)
    (n : nat) :
  color_eqb (minor_line_color a) (major_line_color a) = false ->
  forall (first : Z) (start : Q),
    strokes_of (major_line_color a)
               (lines_from a l ax line_end first start n) =
    List.length
      (filter (fun i => is_major (class_of (major_line_interval a)
                                           (first + Z.of_nat i)))
              (seq 0 n)).
Proof.
  intros Hc. induction n as [| n IH]; intros first start; [reflexivity |].
  rewrite lines_from_step. unfold strokes_of in *.
  rewrite filter_app, length_app, IH.
  cbn [seq filter Z.of_nat]. rewrite Z.add_0_r.
  rewrite (filter_seq_shift
             (fun z => is_major (class_of (major_line_interval a) z))).
  destruct (class_of (major_line_interval a) first);
    cbn [styled_line filter stroke_color is_major List.length];
    rewrite ?color_eqb_refl, ?Hc, length_map; destruct ax; reflexivity.
Qed.

Lemma strokes_axis_ops (a : Args) (l : Layout) (ax : axis) :
  color_eqb (minor_line_color a) (major_line_color a) = false ->
  strokes_of (major_line_color a) (axis_ops a l ax) =
  count_major (major_line_interval a) (axis_lines l ax).
Proof.
  intros Hc. unfold axis_ops, count_major, majors.
  rewrite strokes_lines_from by exact Hc. reflexivity.
Qed.

Lemma ceil_div_step (n k : Z) :
  (0 <= n)%Z -> (0 < k)%Z ->
  ((n + 1 + k - 1) / k = (n + k - 1) / k + if (n mod k =? 0) then 1 else 0)%Z.
Proof.
  intros Hn Hk. destruct (Z.eqb_spec (n mod k) 0) as [E | E].
  - apply Z.mod_divide in E as [q ->]; [| lia].
    replace (q * k + 1 + k - 1)%Z with ((q + 1) * k)%Z by ring.
    rewrite Z.div_mul by lia.
    replace (q * k + k - 1)%Z with (q * k + (k - 1))%Z by ring.
    rewrite Z.div_add_l by lia. rewrite Z.div_small by lia. lia.
  - assert (D : exists q r, n = (q * k + r)%Z /\ (0 < r < k)%Z).
    { exists (n / k)%Z, (n mod k)%Z.
      pose proof (Z.mod_pos_bound n k Hk). pose proof (Z.div_mod n k). lia. }
    destruct D as (q & r & -> & Hr).
    replace (q * k + r + 1 + k - 1)%Z with ((q + 1) * k + r)%Z by ring.
    replace (q * k + r + k - 1)%Z with ((q + 1) * k + (r - 1))%Z by ring.
    rewrite !Z.div_add_l by lia. rewrite !Z.div_small by lia. lia.
Qed.

Lemma majors_closed (k : Z) (n : nat) :
  (0 < k)%Z -> Z.of_nat (majors k n) = ((Z.of_nat n + k - 1) / k)%Z.
Proof.
  intros Hk. induction n as [| n IH].
  - cbn. rewrite Z.div_small; lia.
  - rewrite majors_step, Nat2Z.inj_add, IH, Nat2Z.inj_succ. unfold Z.succ.
    rewrite ceil_div_step by lia.
    destruct (Z.of_nat n mod k =? 0)%Z; reflexivity.
Qed.

Lemma count_major_closed (k num_lines : Z) :
  (0 < k)%Z -> (1 <= num_lines)%Z ->
  Z.of_nat (count_major k num_lines) = ((num_lines - 1) / k + 1)%Z.
Proof.
  intros Hk Hn. unfold count_major.
  rewrite majors_closed by exact Hk. rewrite Z2Nat.id by lia.
  replace (num_lines + k - 1)%Z with (num_lines - 1 + 1 * k)%Z by ring.
  now rewrite Z.div_add by lia.
Qed.

Lemma lines_after_multiple (m k : Z) :
  (2 <= k)%Z -> (m mod k = 0)%Z -> ((m + 1) / k = m / k)%Z.
Proof.
  intros Hk Hm. apply Z.mod_divide in Hm as [q ->]; [| lia].
  rewrite Z.div_add_l, Z.div_mul by lia. rewrite Z.div_small; lia.
Qed.

Lemma layout_lines (a : Args) (l : Layout) (ax : axis) :
  compute_layout a = Ok l ->
  ((axis_lines l ax - 1) mod major_line_interval a = 0)%Z.
Proof.
  intros H. apply compute_layout_inv in H as (nv & nh & g & E & _ & ->).
  apply count_spaces_inv in E as (_ & _ & -> & ->).
  unfold center_vertical, center_horizontal.
  destruct (vertical_center a), (horizontal_center a), ax;
    cbn [axis_lines num_vertical_lines num_horizontal_lines stops];
    rewrite Z.add_simpl_r; apply spaces_of_mod.
Qed.

(** C6, as the code has it.  On every successful call, each axis issues
    exactly num_lines lines; the line of index i in [0, num_lines) is
    drawn at axis_margin + i * grid_size, with the major colour and
    thickness when i mod major_line_interval == 0 and with the minor ones
    otherwise; the lines on the major branch are the strokes in the major
    colour when the two colours differ; for a positive interval and at
    least one line they number (num_lines - 1) // major_line_interval + 1,
    which is num_lines // major_line_interval + 1 when the interval is at
    least 2. *)
Theorem major_minor_lines (a : Args) :
  outcome (create_engineering_sheet a) = Ok tt ->
  exists l,
    compute_layout a = Ok l /\
    ops_of (create_engineering_sheet a) =
      background_ops a ++ (axis_ops a l X ++ axis_ops a l Y)
      ++ ops_of (draw_border a l) ++ ops_of (draw_dividers a l)
      ++ [showPage; save] /\
    (forall ax, List.length (axis_ops a l ax)
                = (3 * Z.to_nat (axis_lines l ax))%nat) /\
    (forall ax i, (0 <= i < axis_lines l ax)%Z ->
       let c := if (i mod major_line_interval a =? 0)%Z then Major else Minor in
       let p := pos_at (axis_start l ax) (grid_size' l) (Z.to_nat i) in
       p == axis_start l ax + inject_Z i * grid_size' l /\
       nth_error (axis_ops a l ax) (3 * Z.to_nat i)
         = Some (setStrokeColor (stroke_color a c)) /\
       nth_error (axis_ops a l ax) (3 * Z.to_nat i + 1)
         = Some (setLineWidth (thickness a c)) /\
       nth_error (axis_ops a l ax) (3 * Z.to_nat i + 2)
         = Some (match ax with
                 | X => line p (margin_bottom' l) p (top_stop l)
                 | Y => line (margin_left' l) p (right_stop l) p
                 end)) /\
    (forall ax, color_eqb (minor_line_color a) (major_line_color a) = false ->
       strokes_of (major_line_color a) (axis_ops a l ax)
       = count_major (major_line_interval a) (axis_lines l ax)) /\
    (forall ax, (0 < major_line_interval a)%Z -> (1 <= axis_lines l ax)%Z ->
       Z.of_nat (count_major (major_line_interval a) (axis_lines l ax))
       = ((axis_lines l ax - 1) / major_line_interval a + 1)%Z) /\
    (forall ax, (2 <= major_line_interval a)%Z -> (1 <= axis_lines l ax)%Z ->
       Z.of_nat (count_major (major_line_interval a) (axis_lines l ax))
       = (axis_lines l ax / major_line_interval a + 1)%Z).
Proof.
  intros H. destruct (sheet_outcome_ok a H) as [l Hl]. exists l.
  split; [exact Hl |].
  split; [now rewrite (sheet_ok a l Hl) |].
  split; [intros ax; apply lines_from_length |].
  split.
  { intros ax i Hi. cbv zeta. split.
    - rewrite pos_at_closed, Z2Nat.id by lia. reflexivity.
    - pose proof (lines_from_nth a l ax (axis_end l ax)
                    (Z.to_nat (axis_lines l ax)) 0 (axis_start l ax)
                    (Z.to_nat i) ltac:(lia)) as N.
      cbv zeta in N. rewrite Z.add_0_l, Z2Nat.id in N by lia.
      destruct ax; exact N. }
  split; [intros ax Hc; now apply strokes_axis_ops |].
  split.
  { intros ax Hk Hn. now apply count_major_closed. }
  intros ax Hk Hn. rewrite count_major_closed by lia.
  f_equal. symmetry.
  replace (axis_lines l ax) with (axis_lines l ax - 1 + 1)%Z at 1 by ring.
  apply lines_after_multiple; [exact Hk | now apply layout_lines].
Qed.

Lemma major_minor_lines_witness :
  exists l,
    compute_layout letter_sheet = Ok l /\
    nth_error (axis_ops letter_sheet l X) 15
      = Some (setStrokeColor darkgreen) /\
    nth_error (axis_ops letter_sheet l X) 18
      = Some (setStrokeColor lightgreen) /\
    Z.of_nat (count_major (major_line_interval letter_sheet) (axis_lines l X))
      = 12%Z.
Proof.
  destruct (major_minor_lines letter_sheet) as (l & Hl & _ & _ & N & _ & _ & C).
  - vm_compute. reflexivity.
  - exists l. split; [exact Hl |].
    assert (E : axis_lines l X = 56%Z).
    { vm_compute in Hl. injection Hl as <-. reflexivity. }
    split; [| split].
    + apply (N X 5%Z). rewrite E. lia.
    + apply (N X 6%Z). rewrite E. lia.
    + rewrite (C X);
        [rewrite E; reflexivity | vm_compute; discriminate | rewrite E; lia].
Defined.

(** C6 refuted at [major_line_interval=1] on a letter page: the call
    succeeds, the vertical axis has 56 lines, all 56 are major, and
    56 // 1 + 1 is 57. *)
Lemma all_major_count :
  outcome (create_engineering_sheet all_major) = Ok tt /\
  exists l,
    compute_layout all_major = Ok l /\
    num_vertical_lines l = 56%Z /\
    strokes_of (major_line_color all_major) (axis_ops all_major l X) = 56%nat /\
    count_major (major_line_interval all_major) (num_vertical_lines l) = 56%nat /\
    Z.of_nat (count_major (major_line_interval all_major) (num_vertical_lines l))
      <> (num_vertical_lines l / major_line_interval all_major + 1)%Z.
Proof.
  split; [vm_compute; reflexivity |].
  eexists. split; [vm_compute; reflexivity |].
  split; [reflexivity |].
  split; [vm_compute; reflexivity |].
  split; [vm_compute; reflexivity |].
  vm_compute. discriminate.
Qed.



(** ** Size of the drawing *)

Lemma segments_app (xs ys : list op) :
  segments (xs ++ ys) = segments xs ++ segments ys.
Proof. apply flat_map_app. Qed.

Lemma segments_lines_from (a : Args) (l : Layout) (ax : axis) (line_end : Q)
    (n : nat) :
  forall (first : Z) (start : Q),
    List.length (segments (lines_from a l ax line_end first start n)) = n.
Proof.
  induction n as [| n IH]; intros first start; [reflexivity |].
  rewrite lines_from_step, segments_app, length_app, IH.
  destruct ax; reflexivity.
Qed.

(** X16. The size of a drawing.  A call that returns has issued
    3 * (V + H) + 12 operations and drawn V + H + 6 segments, V and H
    being num_vertical_lines and num_horizontal_lines where positive and 0
    otherwise: one segment per grid line, four for the border and two
    for the dividers. *)
Theorem drawing_size (a : Args) (l : Layout) :
  compute_layout a = Ok l ->
  let v := Z.to_nat (num_vertical_lines l) in
  let h := Z.to_nat (num_horizontal_lines l) in
  List.length (ops_of (create_engineering_sheet a)) = (3 * (v + h) + 12)%nat /\
  List.length (segments (ops_of (create_engineering_sheet a)))
    = (v + h + 6)%nat.
Proof.
  intros H. cbv zeta. rewrite (sheet_ok a l H). cbn [ops_of fst].
  split.
  - rewrite !length_app. unfold axis_ops. rewrite !lines_from_length.
    cbn [axis_lines background_ops List.length draw_border draw_dividers
         ops_of fst]. cbn. lia.
  - rewrite !segments_app, !length_app. unfold axis_ops.
    rewrite !segments_lines_from. cbn. lia.
Qed.

Lemma drawing_size_witness :
  List.length (ops_of (create_engineering_sheet letter_sheet)) = 393%nat /\
  List.length (segments (ops_of (create_engineering_sheet letter_sheet)))
    = 133%nat.
Proof.
  apply (drawing_size letter_sheet
           (center_vertical letter_sheet
              (center_horizontal letter_sheet
                 (stops letter_sheet 55 70 (552 # 55))))).
  reflexivity.
Defined.

(** X17. The drawing loop, from any state.  Given fuel for
    num_lines - count iterations it leaves by its guard, having issued
    three operations for each index from count up to num_lines - 1 and
    none when count has reached num_lines; more fuel changes nothing.
    That is for a nonzero major_line_interval; with an interval of 0
    the first iteration raises ZeroDivisionError at [count % 0], before
    drawing. *)
Theorem loop_runs_to_guard (a : Args) (l : Layout) (ax : axis)
    (line_end : Q) (num_lines : Z) (fuel : nat) (line_pos : Q) (count : Z) :
  (Z.to_nat (num_lines - count) <= fuel)%nat ->
  (major_line_interval a <> 0%Z ->
   outcome (while_lines a l ax line_end num_lines fuel line_pos count) = Ok tt
   /\
   while_lines a l ax line_end num_lines fuel line_pos count
   = while_lines a l ax line_end num_lines
       (Z.to_nat (num_lines - count)) line_pos count /\
   List.length
     (ops_of (while_lines a l ax line_end num_lines fuel line_pos count))
   = (3 * Z.to_nat (num_lines - count))%nat /\
   ((num_lines <= count)%Z ->
    ops_of (while_lines a l ax line_end num_lines fuel line_pos count) = []))
  /\
  (major_line_interval a = 0%Z -> (count < num_lines)%Z ->
   while_lines a l ax line_end num_lines fuel line_pos count
   = ([], Raise ZeroDivisionError)).
Proof.
  intros Hf. split.
  - intros Hk.
    rewrite (while_lines_closed a l ax line_end num_lines Hk fuel) by exact Hf.
    rewrite (while_lines_closed a l ax line_end num_lines Hk
               (Z.to_nat (num_lines - count))) by lia.
    cbn [outcome ops_of fst snd]. rewrite lines_from_length.
    repeat split. intros Hc.
    replace (Z.to_nat (num_lines - count)) with O by lia. reflexivity.
  - intros Hk Hc. destruct fuel as [| fuel]; [lia |].
    cbn [while_lines]. destruct (Z.ltb_spec count num_lines); [| lia].
    unfold classify, Py.mod_. rewrite Hk. reflexivity.
Qed.

Lemma loop_runs_to_guard_witness :
  let l := center_vertical letter_sheet
             (center_horizontal letter_sheet
                (stops letter_sheet 55 70 (552 # 55))) in
  List.length
    (ops_of (while_lines letter_sheet l X (top_stop l) 56 100
                         (margin_left' l) 50))
  = 18%nat.
Proof.
  intros l.
  refine (proj1 (proj2 (proj2
            (proj1 (loop_runs_to_guard letter_sheet l X (top_stop l) 56 100
                      (margin_left' l) 50 _) _)))).
  - simpl. lia.
  - simpl. lia.
Defined.

(** * The code over Python's numbers: properties *)

(** ** [Source]: the course of a call *)

Import Python.
Import Source.
Local Open Scope Z_scope.

Lemma bind_returned {A B} (m : M A) (f : A -> M B) (a : A) :
  outcome m = Ok a ->
  bind m f = (ops_of m ++ ops_of (f a), outcome (f a)).
Proof.
  destruct m as [ops r]. cbn [outcome snd]. intros ->.
  cbn [bind ops_of fst]. now destruct (f a).
Qed.

Lemma bind_raised {A B} (m : M A) (f : A -> M B) (e : error) :
  outcome m = Raise e -> bind m f = (ops_of m, Raise e).
Proof.
  destruct m as [ops r]. cbn [outcome snd]. intros ->. reflexivity.
Qed.

Lemma bind_assoc {A B C} (m : M A) (f : A -> M B) (g : B -> M C) :
  bind (bind m f) g = bind m (fun x => bind (f x) g).
Proof.
  destruct m as [ops [a | e]]; [| reflexivity]. cbn [bind].
  destruct (f a) as [ops' [b | e']]; [| reflexivity]. cbn [bind].
  destruct (g b) as [ops'' r]. now rewrite app_assoc.
Qed.

Lemma bind_ext {A B} (m : M A) (f g : A -> M B) :
  (forall x, f x = g x) -> bind m f = bind m g.
Proof.
  intros H. destruct m as [ops [a | e]]; [| reflexivity].
  cbn [bind]. now rewrite H.
Qed.

(** *** Neither [showPage] nor [save] before line 110 *)

Lemma drawing_only_bind {A B} (m : M A) (f : A -> M B) :
  drawing_only m -> (forall a, drawing_only (f a)) ->
  drawing_only (bind m f).
Proof.
  intros Hm Hf. destruct (outcome m) as [a | e] eqn:E.
  - rewrite (bind_returned m f a E). unfold drawing_only. cbn [ops_of fst].
    apply Forall_app. split; [exact Hm | apply Hf].
  - rewrite (bind_raised m f e E). exact Hm.
Qed.

Lemma drawing_only_lift {A} (r : result A) : drawing_only (lift r).
Proof. constructor. Qed.

Lemma drawing_only_ret {A} (a : A) : drawing_only (ret a).
Proof. constructor. Qed.

Lemma drawing_only_emit (lib : op -> result unit) (o : op) :
  is_drawing o = true -> drawing_only (emit lib o).
Proof. intros H. constructor; [exact H | constructor]. Qed.

(** Sequences of calls and arithmetic. *)
Ltac drawing :=
  repeat first
    [ apply drawing_only_bind; [| intros ?]
    | apply drawing_only_lift
    | apply drawing_only_ret
    | apply drawing_only_emit; reflexivity ].

Lemma drawing_only_while (lib : op -> result unit) (a : Args) (l : Layout)
    (ax : axis) (line_end : value) (num_lines : Z) (fuel : nat) :
  forall (line_pos : value) (count : Z),
    drawing_only
      (while_lines lib a l ax line_end num_lines fuel line_pos count).
Proof.
  induction fuel as [| fuel IH]; intros line_pos count; cbn [while_lines].
  - apply drawing_only_ret.
  - destruct (count <? num_lines); [| apply drawing_only_ret].
    apply drawing_only_bind; [apply drawing_only_lift | intros c].
    apply drawing_only_bind; [unfold set_style; drawing | intros _].
    apply drawing_only_bind; [destruct ax; drawing | intros _].
    apply drawing_only_bind; [apply drawing_only_lift | intros p].
    apply IH.
Qed.

Lemma drawing_only_grid (lib : op -> result unit) (a : Args) (l : Layout) :
  drawing_only (draw_grid lib a l).
Proof.
  unfold draw_grid. cbn [for_each].
  apply drawing_only_bind; [apply drawing_only_while | intros _].
  apply drawing_only_bind; [apply drawing_only_while | intros _].
  apply drawing_only_ret.
Qed.

Lemma drawing_only_drawing (lib : op -> result unit) (a : Args) :
  drawing_only (drawing lib a).
Proof.
  unfold drawing.
  apply drawing_only_bind; [drawing | intros _].
  apply drawing_only_bind; [drawing | intros _].
  apply drawing_only_bind; [unfold draw_background; drawing | intros _].
  apply drawing_only_bind; [drawing | intros l].
  apply drawing_only_bind; [apply drawing_only_grid | intros _].
  apply drawing_only_bind; [unfold draw_border; drawing | intros _].
  unfold draw_dividers; drawing.
Qed.

Lemma drawing_only_not_in {A} (m : M A) :
  drawing_only m -> ~ In save (ops_of m) /\ ~ In showPage (ops_of m).
Proof.
  unfold drawing_only. rewrite Forall_forall. intros H.
  split; intros Hin; apply H in Hin; discriminate.
Qed.

(** *** Every call of a command that returned has returned *)

Lemma all_returned_bind (lib : op -> result unit) {A B} (m : M A)
    (f : A -> M B) :
  all_returned lib m -> (forall a, all_returned lib (f a)) ->
  all_returned lib (bind m f).
Proof.
  intros Hm Hf x. destruct (outcome m) as [a | e] eqn:E.
  - rewrite (bind_returned m f a E). cbn [outcome ops_of fst snd].
    intros Hx. apply Forall_app. split; [now apply (Hm a) | now apply (Hf a x)].
  - rewrite (bind_raised m f e E). discriminate.
Qed.

Lemma all_returned_lift (lib : op -> result unit) {A} (r : result A) :
  all_returned lib (lift r).
Proof. intros x _. constructor. Qed.

Lemma all_returned_ret (lib : op -> result unit) {A} (a : A) :
  all_returned lib (ret a).
Proof. intros x _. constructor. Qed.

Lemma all_returned_emit (lib : op -> result unit) (o : op) :
  all_returned lib (emit lib o).
Proof.
  intros [] H. cbn in H. constructor; [exact H | constructor].
Qed.

Ltac returned :=
  repeat first
    [ apply all_returned_bind; [| intros ?]
    | apply all_returned_lift
    | apply all_returned_ret
    | apply all_returned_emit ].

Lemma all_returned_while (lib : op -> result unit) (a : Args) (l : Layout)
    (ax : axis) (line_end : value) (num_lines : Z) (fuel : nat) :
  forall (line_pos : value) (count : Z),
    all_returned lib
      (while_lines lib a l ax line_end num_lines fuel line_pos count).
Proof.
  induction fuel as [| fuel IH]; intros line_pos count; cbn [while_lines].
  - apply all_returned_ret.
  - destruct (count <? num_lines); [| apply all_returned_ret].
    apply all_returned_bind; [apply all_returned_lift | intros c].
    apply all_returned_bind; [unfold set_style; returned | intros _].
    apply all_returned_bind; [destruct ax; returned | intros _].
    apply all_returned_bind; [apply all_returned_lift | intros p].
    apply IH.
Qed.

Lemma all_returned_drawing (lib : op -> result unit) (a : Args) :
  all_returned lib (drawing lib a).
Proof.
  unfold drawing.
  apply all_returned_bind; [returned | intros _].
  apply all_returned_bind; [returned | intros _].
  apply all_returned_bind; [unfold draw_background; returned | intros _].
  apply all_returned_bind; [returned | intros l].
  apply all_returned_bind; [| intros _].
  { unfold draw_grid. cbn [for_each].
    apply all_returned_bind; [apply all_returned_while | intros _].
    apply all_returned_bind; [apply all_returned_while | intros _].
    apply all_returned_ret. }
  apply all_returned_bind; [unfold draw_border; returned | intros _].
  unfold draw_dividers; returned.
Qed.

(** *** Lines 32-111 *)

Lemma sheet_then_save (lib : op -> result unit) (a : Args) :
  create_engineering_sheet lib a
  = bind (drawing lib a)
         (fun _ => bind (emit lib showPage) (fun _ => emit lib save)).
Proof.
  unfold create_engineering_sheet, drawing.
  repeat (rewrite bind_assoc; apply bind_ext; intros ?).
  reflexivity.
Qed.

(** The three ways a call can go. *)
Lemma sheet_run (lib : op -> result unit) (a : Args) :
  create_engineering_sheet lib a =
  match outcome (drawing lib a) with
  | Raise e => (ops_of (drawing lib a), Raise e)
  | Ok _ =>
      match lib showPage with
      | Raise e => (ops_of (drawing lib a) ++ [showPage], Raise e)
      | Ok _ => (ops_of (drawing lib a) ++ [showPage; save], lib save)
      end
  end.
Proof.
  rewrite sheet_then_save.
  destruct (drawing lib a) as [ops [[] | e]]; cbn [outcome snd ops_of fst];
    [| reflexivity].
  unfold emit. cbn [bind].
  destruct (lib showPage) as [[] | e]; reflexivity.
Qed.

(** A call whose opening calls return and whose layout raises. *)
Lemma sheet_layout_raise (lib : op -> result unit) (a : Args) (e : error) :
  returns lib (opening a) ->
  compute_layout a = Raise e ->
  create_engineering_sheet lib a = (opening a, Raise e).
Proof.
  intros R L. unfold returns, opening in R.
  inversion_clear R as [| ? ? R1 Ra]. inversion_clear Ra as [| ? ? R2 Rb].
  inversion_clear Rb as [| ? ? R3 Rc]. inversion_clear Rc as [| ? ? R4 _].
  unfold create_engineering_sheet, draw_background, emit, lift.
  rewrite R1, R2, R3, R4, L. reflexivity.
Qed.

Lemma has_save_In (ops : list op) : has_save ops = true -> In save ops.
Proof.
  unfold has_save. rewrite existsb_exists. intros (o & Hin & Ho).
  destruct o; try discriminate. exact Hin.
Qed.

Lemma drawing_returned_layout (lib : op -> result unit) (a : Args) :
  outcome (drawing lib a) = Ok tt -> exists l, compute_layout a = Ok l.
Proof.
  unfold drawing, draw_background, emit, lift.
  destruct (lib (Canvas _ _)) as [[] |]; [| discriminate]. cbn [bind].
  destruct (lib (log_debug _)) as [[] |]; [| discriminate]. cbn [bind].
  destruct (lib (setFillColor _)) as [[] |]; [| discriminate]. cbn [bind].
  destruct (lib (rect _ _ _ _ _)) as [[] |]; [| discriminate]. cbn [bind].
  destruct (compute_layout a) as [l | e]; [| discriminate].
  intros _. now exists l.
Qed.

(** C9, as the code has it.  [c.save()] is the last statement of the
    function and nothing catches what it raises.  A call to [save] is made
    only after the whole draw sequence of lines 32-107 (background, grid
    lines, border, dividers) and [showPage] have returned: a call that
    fails before line 111 has not called [save], and one that fails
    before line 110 has called neither [showPage] nor [save].  Once
    [save] is called the call ends as [save] ends, so that a failing call
    has called [save] exactly when the failure is that of [save]
    itself. *)
Theorem save_only_after_drawing (lib : op -> result unit) (a : Args) :
  let run := create_engineering_sheet lib a in
  (In save (ops_of run) ->
   outcome (drawing lib a) = Ok tt /\
   (exists l, compute_layout a = Ok l) /\
   returns lib (ops_of (drawing lib a) ++ [showPage]) /\
   ops_of run = ops_of (drawing lib a) ++ [showPage; save] /\
   ~ In save (ops_of (drawing lib a)) /\
   ~ In showPage (ops_of (drawing lib a)) /\
   outcome run = lib save) /\
  (~ In save (ops_of run) -> failed (outcome run)) /\
  (failed (outcome (drawing lib a)) ->
   outcome run = outcome (drawing lib a) /\
   ~ In save (ops_of run) /\ ~ In showPage (ops_of run)).
Proof.
  cbv zeta. rewrite sheet_run.
  destruct (drawing_only_not_in _ (drawing_only_drawing lib a)) as [Ds Dp].
  pose proof (all_returned_drawing lib a) as R.
  pose proof (drawing_returned_layout lib a) as L.
  destruct (outcome (drawing lib a)) as [[] | e] eqn:D.
  - destruct (lib showPage) as [[] | e] eqn:P;
      cbn [ops_of outcome fst snd failed].
    + split; [| split].
      * intros _. repeat split; auto.
        apply Forall_app. split; [now apply (R tt) |].
        constructor; [exact P | constructor].
      * intros H. exfalso. apply H. rewrite in_app_iff. right. cbn. tauto.
      * intros [].
    + split; [| split].
      * rewrite in_app_iff. intros [H | H]; [contradiction |].
        cbn in H. destruct H as [H | []]. discriminate.
      * intros _. exact I.
      * intros [].
  - cbn [ops_of outcome fst snd failed].
    split; [intros H; contradiction |]. split; [intros _; exact I |].
    intros _. auto.
Qed.

Lemma save_only_after_drawing_witness :
  outcome (drawing obliging default_call) = Ok tt /\
  outcome (create_engineering_sheet obliging default_call) = Ok tt.
Proof.
  destruct (proj1 (save_only_after_drawing obliging default_call))
    as (Hd & _ & _ & _ & _ & _ & Ho).
  - apply has_save_In. vm_compute. reflexivity.
  - split; [exact Hd | exact Ho].
Defined.

(** C9 refuted where the file cannot be written: the default call makes
    every call of the draw sequence, calls [save], and fails with what
    [save] raised. *)
Lemma unwritable_file_fails_after_save :
  failed (outcome (create_engineering_sheet unwritable default_call)) /\
  In save (ops_of (create_engineering_sheet unwritable default_call)) /\
  outcome (create_engineering_sheet unwritable default_call)
    = Raise OSError.
Proof.
  assert (E : outcome (create_engineering_sheet unwritable default_call)
              = Raise OSError) by (vm_compute; reflexivity).
  split; [rewrite E; exact I |]. split; [| exact E].
  apply has_save_In. vm_compute. reflexivity.
Qed.

(** ** [Source]: lines 43-53 *)

Lemma float_floordiv_zero (s : bool) (y q : F64.float) :
  float_floordiv (S754_zero s) y = Ok q ->
  F64.is_zero q = true \/ q = S754_nan.
Proof.
  destruct y as [t | t | | t m e]; destruct s; try destruct t;
    cbv; intros H; inversion H; auto.
Qed.

Lemma float_floordiv_nan (y q : F64.float) :
  float_floordiv S754_nan y = Ok q -> q = S754_nan.
Proof.
  destruct y as [t | t | | t m e]; try destruct t;
    cbv; intros H; inversion H; auto.
Qed.

Lemma float_floordiv_zero_or_nan (x y q : F64.float) :
  zero_or_nan (Float x) -> float_floordiv x y = Ok q ->
  zero_or_nan (Float q).
Proof.
  intros [Hx | Hx] H.
  - destruct x as [s | | |]; try discriminate.
    apply float_floordiv_zero in H as [H | ->]; [left | right]; auto.
  - injection Hx as ->. apply float_floordiv_nan in H as ->. now right.
Qed.

(** [0 // b] and [nan // b] are a zero or a NaN. *)
Lemma floordiv_zero_or_nan (a b v : value) :
  zero_or_nan a -> floordiv a b = Ok v -> zero_or_nan v.
Proof.
  intros Ha H.
  assert (F : forall x y, zero_or_nan (Float x) ->
              (q <- float_floordiv x y ;; Ok (Float q))%python = Ok v ->
              zero_or_nan v).
  { intros x y Hx Hy.
    destruct (float_floordiv x y) as [q |] eqn:E; [| discriminate].
    injection Hy as <-. now apply (float_floordiv_zero_or_nan x y). }
  destruct a as [x | x].
  - destruct Ha as [Ha | Ha]; [| discriminate].
    apply Z.eqb_eq in Ha. subst x. destruct b as [y | y].
    + cbn [floordiv] in H. destruct (y =? 0); [discriminate |].
      injection H as <-. left. reflexivity.
    + cbn [floordiv to_float rbind] in H.
      change (F64.of_Z 0) with (S754_zero false) in H. cbn [rbind] in H.
      apply F in H; [exact H | now left].
  - destruct b as [y | y]; cbn [floordiv to_float rbind] in H.
    + destruct (F64.of_Z y); try discriminate; apply F in H; assumption.
    + apply F in H; assumption.
Qed.

Lemma mul_zero_or_nan (q p : value) (k : Z) :
  zero_or_nan q -> mul q (Int k) = Ok p -> zero_or_nan p.
Proof.
  intros Hq H. destruct q as [x | x].
  - destruct Hq as [Hq | Hq]; [| discriminate].
    apply Z.eqb_eq in Hq. subst x. cbn in H. injection H as <-. now left.
  - cbn [mul float_op to_float rbind] in H.
    destruct Hq as [Hq | Hq].
    + destruct x as [s | | |]; try discriminate.
      destruct (F64.of_Z k) as [t | t | | t m e]; try discriminate;
        cbn in H; injection H as <-; [left | right | left]; reflexivity.
    + injection Hq as ->.
      destruct (F64.of_Z k) as [t | t | | t m e]; try discriminate;
        cbn in H; injection H as <-; right; reflexivity.
Qed.

Lemma int_zero_or_nan (p : value) (n : Z) :
  zero_or_nan p -> int p = Ok n -> n = 0.
Proof.
  intros [Hp | Hp] H.
  - destruct p as [x | x].
    + apply Z.eqb_eq in Hp. cbn in H. congruence.
    + destruct x; try discriminate. cbn in H. congruence.
  - subst p. discriminate.
Qed.

(** [mult_floor] of a zero or a NaN is 0, when it returns. *)
Lemma mult_floor_of_zero (v : value) (k n : Z) :
  zero_or_nan v -> mult_floor v (Int k) = Ok n -> n = 0.
Proof.
  intros Hv H. unfold mult_floor in H.
  destruct (floordiv v (Int k)) as [q |] eqn:Q; [| discriminate].
  cbn [rbind] in H.
  destruct (mul q (Int k)) as [p |] eqn:P; [| discriminate].
  cbn [rbind] in H.
  apply (int_zero_or_nan p); [| exact H].
  apply (mul_zero_or_nan q p k); [| exact P].
  now apply (floordiv_zero_or_nan v (Int k)).
Qed.

Lemma count_spaces_steps (a : Args) (nv nh : Z) :
  count_spaces a = Ok (nv, nh) ->
  exists uw v uh h,
    usable_width a = Ok uw /\ floordiv uw (grid_size a) = Ok v /\
    usable_height a = Ok uh /\ floordiv uh (grid_size a) = Ok h /\
    mult_floor v (Int (major_line_interval a)) = Ok nv /\
    mult_floor h (Int (major_line_interval a)) = Ok nh.
Proof.
  unfold count_spaces. intros H.
  destruct (usable_width a) as [uw |]; [| discriminate]. cbn [rbind] in H.
  destruct (floordiv uw (grid_size a)) as [v |] eqn:Dv; [| discriminate].
  cbn [rbind] in H.
  destruct (usable_height a) as [uh |]; [| discriminate]. cbn [rbind] in H.
  destruct (floordiv uh (grid_size a)) as [h |] eqn:Dh; [| discriminate].
  cbn [rbind] in H.
  destruct (mult_floor v _) as [nv' |] eqn:Mv; [| discriminate].
  cbn [rbind] in H.
  destruct (mult_floor h _) as [nh' |] eqn:Mh; [| discriminate].
  cbn [rbind] in H.
  injection H as <- <-. exists uw, v, uh, h. repeat split; assumption.
Qed.

(** [u / 0] raises, whatever [u] is. *)
Lemma truediv_zero_count (u : value) :
  truediv u (Int 0) = Raise ZeroDivisionError.
Proof.
  destruct u as [x | x]; [reflexivity |].
  cbn [truediv to_float rbind]. reflexivity.
Qed.

Lemma stretch_zero_count (a : Args) (nv nh : Z) (uw uh : value) :
  usable_width a = Ok uw -> usable_height a = Ok uh ->
  stretch_grid a = true ->
  nv = 0 \/ nh = 0 ->
  (nv <> 0 -> ~ failed (truediv uw (Int nv))) ->
  stretch a nv nh = Raise ZeroDivisionError.
Proof.
  intros Ew Eh Hs Hz Hno. unfold stretch. rewrite Hs, Ew. cbn [rbind].
  destruct (Z.eq_dec nv 0) as [-> | Hv].
  - now rewrite truediv_zero_count.
  - destruct Hz as [Hz | ->]; [contradiction |].
    specialize (Hno Hv).
    destruct (truediv uw (Int nv)) as [gv |]; [| now exfalso; apply Hno].
    cbn [rbind]. rewrite Eh. cbn [rbind]. now rewrite truediv_zero_count.
Qed.

Lemma layout_raise (a : Args) (nv nh : Z) (e : error) :
  count_spaces a = Ok (nv, nh) -> stretch a nv nh = Raise e ->
  compute_layout a = Raise e.
Proof.
  intros E S. unfold compute_layout. rewrite E. cbn [rbind fst snd].
  now rewrite S.
Qed.

(** C1, as the code has it.  [paper.py] does not check the usable size
    and has no InvalidLayoutError.  When the usable width or the usable
    height is 0, stretch_grid is enabled and lines 32-47 have raised
    nothing, the space count of that axis is 0 and the call ends with the
    ZeroDivisionError of line 50 or 51, having made the calls of lines
    32-40 and no other; line 51 is reached when the division by
    num_vertical_spaces at line 50 does not overflow. *)
Theorem zero_usable_space_raises (lib : op -> result unit) (a : Args)
    (uw uh : value) (nv nh : Z) :
  usable_width a = Ok uw -> usable_height a = Ok uh ->
  is_zero uw = true \/ is_zero uh = true ->
  stretch_grid a = true ->
  returns lib (opening a) ->
  count_spaces a = Ok (nv, nh) ->
  (nv <> 0 -> ~ failed (truediv uw (Int nv))) ->
  (is_zero uw = true -> nv = 0) /\
  (is_zero uh = true -> nh = 0) /\
  create_engineering_sheet lib a = (opening a, Raise ZeroDivisionError).
Proof.
  intros Ew Eh Hz Hs R E Hno.
  destruct (count_spaces_steps a nv nh E)
    as (uw' & v & uh' & h & Ew' & Dv & Eh' & Dh & Mv & Mh).
  rewrite Ew in Ew'. injection Ew' as <-.
  rewrite Eh in Eh'. injection Eh' as <-.
  assert (Zv : is_zero uw = true -> nv = 0).
  { intros Z0. apply (mult_floor_of_zero v (major_line_interval a) nv); [| exact Mv].
    apply (floordiv_zero_or_nan uw (grid_size a)); [now left | exact Dv]. }
  assert (Zh : is_zero uh = true -> nh = 0).
  { intros Z0. apply (mult_floor_of_zero h (major_line_interval a) nh); [| exact Mh].
    apply (floordiv_zero_or_nan uh (grid_size a)); [now left | exact Dh]. }
  split; [exact Zv |]. split; [exact Zh |].
  apply sheet_layout_raise; [exact R |].
  apply (layout_raise a nv nh); [exact E |].
  apply (stretch_zero_count a nv nh uw uh); auto.
  destruct Hz as [Hz | Hz]; auto.
Qed.

Lemma zero_usable_space_raises_witness :
  create_engineering_sheet obliging call_no_width
  = (opening call_no_width, Raise ZeroDivisionError).
Proof.
  refine (proj2 (proj2 (zero_usable_space_raises obliging call_no_width
           (Float (S754_zero false)) (Float (F64.of_Z 732)) 0 70
           _ _ _ _ _ _ _))).
  - vm_compute. reflexivity.
  - vm_compute. reflexivity.
  - left. reflexivity.
  - reflexivity.
  - repeat constructor.
  - vm_compute. reflexivity.
  - intros H. now contradiction H.
Defined.

(** C1 refuted at [margin=(30, 400, 30, 400)] on a letter page: the usable
    width is -188.0, and the call draws, saves and returns. *)
Lemma wide_margins_not_rejected :
  usable_width call_wide_margins = Ok (Float (F64.of_Z (-188))) /\
  outcome (create_engineering_sheet obliging call_wide_margins) = Ok tt /\
  In save (ops_of (create_engineering_sheet obliging call_wide_margins)).
Proof.
  split; [vm_compute; reflexivity |].
  split; [vm_compute; reflexivity |].
  apply has_save_In. vm_compute. reflexivity.
Qed.

(** C2, as the code has it.  No guard precedes the divisions of lines
    50-51.  When stretch_grid is enabled, lines 32-47 have raised nothing
    and a space count is 0, the division by the zero count is performed
    and the call ends with the ZeroDivisionError it raises, having made
    the calls of lines 32-40 and no other: at line 50 when
    num_vertical_spaces is 0, and otherwise at line 51, which is reached
    when the division by num_vertical_spaces at line 50 does not
    overflow. *)
Theorem zero_count_raises (lib : op -> result unit) (a : Args) (nv nh : Z) :
  stretch_grid a = true ->
  returns lib (opening a) ->
  count_spaces a = Ok (nv, nh) ->
  nv = 0 \/ nh = 0 ->
  (forall uw, usable_width a = Ok uw -> nv <> 0 ->
              ~ failed (truediv uw (Int nv))) ->
  (forall uw, usable_width a = Ok uw -> nv = 0 ->
              truediv uw (Int nv) = Raise ZeroDivisionError) /\
  (forall uh, usable_height a = Ok uh -> nh = 0 ->
              truediv uh (Int nh) = Raise ZeroDivisionError) /\
  create_engineering_sheet lib a = (opening a, Raise ZeroDivisionError).
Proof.
  intros Hs R E Hz Hno.
  split; [intros uw _ ->; apply truediv_zero_count |].
  split; [intros uh _ ->; apply truediv_zero_count |].
  apply sheet_layout_raise; [exact R |].
  destruct (count_spaces_steps a nv nh E) as (uw & v & uh & h & Ew & _ & Eh & _).
  apply (layout_raise a nv nh); [exact E |].
  apply (stretch_zero_count a nv nh uw uh); auto.
Qed.

Lemma zero_count_raises_witness :
  create_engineering_sheet obliging call_huge_cell
  = (opening call_huge_cell, Raise ZeroDivisionError).
Proof.
  refine (proj2 (proj2 (zero_count_raises obliging call_huge_cell 0 0
                          _ _ _ _ _))).
  - reflexivity.
  - repeat constructor.
  - vm_compute. reflexivity.
  - left. reflexivity.
  - intros uw _ H. now contradiction H.
Defined.

(** C2 refuted at [grid_size=1000] on a letter page: both counts are 0,
    stretch_grid is on, and the call ends with the ZeroDivisionError of
    the division at line 50. *)
Lemma huge_cell_zero_division :
  stretch_grid call_huge_cell = true /\
  count_spaces call_huge_cell = Ok (0, 0) /\
  truediv (Float (F64.of_Z 552)) (Int 0) = Raise ZeroDivisionError /\
  outcome (create_engineering_sheet obliging call_huge_cell)
  = Raise ZeroDivisionError.
Proof.
  split; [reflexivity |]. repeat split; vm_compute; reflexivity.
Qed.

(** ** [Source]: [mult_floor] and the space counts *)









(** ** [Source]: lines 49-68 *)












(** *** The centering deltas, lines 60-68 *)











